(** * Feishu_Enhancer admin console: the frontend's handlers and renderers

    A shallow embedding of [frontend/src/services/api.ts] and of the pages
    [TasksPage.tsx], [BusinessKnowledgePage.tsx] and
    [ReasoningKnowledgePage.tsx], with the properties the specification
    states about them.

    JavaScript data is modelled as the language has it: strings are
    sequences of UTF-16 code units, numbers are binary64 floats (the
    standard library's [spec_float], computed over [Z]), values of type
    [any] are a tagged union.  Built-ins the pages call but do not define
    ([Number::toString], [JSON.parse], the text of a [TypeError]) are the
    fields of a class [Runtime].  What TypeScript declares as [number] and
    the code turns into text (the ids spliced into paths, the similarity
    score) is modelled as a number. *)

From Stdlib Require Import ZArith NArith List String Ascii Bool Lia.
From Stdlib Require Import DecimalString.
From Stdlib Require Import Floats.SpecFloat.
Import ListNotations.

Local Open Scope Z_scope.

(* ===================================================================== *)
(** ** JavaScript values *)
(* ===================================================================== *)

Module Js.

(** A string is a sequence of UTF-16 code units. *)
Definition jsstring := list N.

(** The literals of the source are written here as UTF-8 text and decoded
    to code units (a code point above U+FFFF gives a surrogate pair). *)
Fixpoint utf8_decode (bs : list N) : list N :=
  match bs with
  | [] => []
  | b0 :: r0 =>
      if (b0 <? 128)%N then b0 :: utf8_decode r0
      else if (b0 <? 224)%N then
        match r0 with
        | b1 :: r1 => ((b0 - 192) * 64 + (b1 - 128))%N :: utf8_decode r1
        | [] => [65533%N]
        end
      else if (b0 <? 240)%N then
        match r0 with
        | b1 :: b2 :: r2 =>
            ((b0 - 224) * 4096 + (b1 - 128) * 64 + (b2 - 128))%N :: utf8_decode r2
        | _ => [65533%N]
        end
      else
        match r0 with
        | b1 :: b2 :: b3 :: r3 =>
            let cp := ((b0 - 240) * 262144 + (b1 - 128) * 4096
                       + (b2 - 128) * 64 + (b3 - 128))%N in
            let v := (cp - 65536)%N in
            (55296 + v / 1024)%N :: (56320 + v mod 1024)%N :: utf8_decode r3
        | _ => [65533%N]
        end
  end.

Definition lit (s : string) : jsstring :=
  utf8_decode (map N_of_ascii (list_ascii_of_string s)).

Definition jsstring_eqb (a b : jsstring) : bool :=
  if list_eq_dec N.eq_dec a b then true else false.

(** [s.length] and [s.substring(0, n)]; [a + b] on strings is [a ++ b]. *)
Definition length (s : jsstring) : Z := Z.of_nat (List.length s).
Definition substring0 (s : jsstring) (n : nat) : jsstring := firstn n s.

(** [String.prototype.trim]: strips the code units that ECMAScript calls
    WhiteSpace or LineTerminator from both ends. *)
Definition is_space (c : N) : bool :=
  ((9 <=? c) && (c <=? 13) || (c =? 32) || (c =? 160) || (c =? 5760)
   || (8192 <=? c) && (c <=? 8202) || (c =? 8232) || (c =? 8233)
   || (c =? 8239) || (c =? 8287) || (c =? 12288) || (c =? 65279))%N.

Fixpoint trimStart (s : jsstring) : jsstring :=
  match s with
  | c :: r => if is_space c then trimStart r else s
  | [] => []
  end.

Definition trimEnd (s : jsstring) : jsstring := rev (trimStart (rev s)).
Definition trim (s : jsstring) : jsstring := trimEnd (trimStart s).

(** A number is an IEEE 754 binary64 value. *)
Definition number := spec_float.
Definition prec : Z := 53.
Definition emax : Z := 1024.

Definition of_Z (z : Z) : number := binary_normalize prec emax z 0 false.
Definition mul (x y : number) : number := SFmul prec emax x y.
Definition div (x y : number) : number := SFdiv prec emax x y.

(** The number a decimal literal [n/10^k] denotes (numerator and power of
    ten both exactly representable): the quotient, correctly rounded. *)
Definition decimal (n : Z) (k : nat) : number := div (of_Z n) (of_Z (10 ^ Z.of_nat k)).

(** Values of type [any]. *)
#[local] Set Warnings "-register-all".
Inductive value :=
| Undefined
| Null
| Bool (b : bool)
| Num (x : number)
| Str (s : jsstring)
| Arr (items : list value)
| Obj (props : list (jsstring * value)).

(** ToBoolean. *)
Definition truthy (v : value) : bool :=
  match v with
  | Undefined | Null => false
  | Bool b => b
  | Num (S754_zero _) | Num S754_nan => false
  | Num _ => true
  | Str [] => false
  | Str _ => true
  | Arr _ | Obj _ => true
  end.

(** [a || b]. *)
Definition or_else (a b : value) : value := if truthy a then a else b.

Fixpoint lookup (props : list (jsstring * value)) (k : jsstring) : value :=
  match props with
  | [] => Undefined
  | (k', v) :: r => if jsstring_eqb k' k then v else lookup r k
  end.

(** [v.k] for a key that no built-in prototype defines: an own property of
    an object, [undefined] on any other value, and a [TypeError] ([None])
    on [null] and [undefined]. *)
Definition member (v : value) (k : jsstring) : option value :=
  match v with
  | Undefined | Null => None
  | Obj props => Some (lookup props k)
  | _ => Some Undefined
  end.

(** [v?.k]. *)
Definition opt_member (v : value) (k : jsstring) : value :=
  match member v k with
  | Some x => x
  | None => Undefined
  end.

(** What the language leaves to its run-time library. *)
Class Runtime := {
  Number_toString : number -> jsstring;
  JSON_parse : jsstring -> option value;  (* [None]: a SyntaxError is thrown *)
  TypeError_message : value -> jsstring -> jsstring;
  ToPrimitive_message : jsstring
}.

Section WithRuntime.
Context {RT : Runtime}.

Definition join_with (sep : jsstring) (parts : list jsstring) : jsstring :=
  match parts with
  | [] => []
  | p :: r => p ++ flat_map (fun q => sep ++ q) r
  end.

(** Whether an object has an own property [k]. *)
Definition has_key (props : list (jsstring * value)) (k : jsstring) : bool :=
  existsb (fun kv => jsstring_eqb (fst kv) k) props.

(** ToString, as string concatenation and template literals apply it to an
    operand; [None] when it throws a [TypeError].  The values are those of
    JSON, so no property is callable: converting an object to a primitive
    finds [Object.prototype.toString] and gives ['[object Object]'], unless
    the object has an own property [toString], which hides it; then neither
    [toString] nor [valueOf] yields a primitive and the conversion throws.
    An array is joined with commas, each element converted in turn, null
    and undefined elements giving the empty string. *)
Fixpoint to_string (v : value) : option jsstring :=
  match v with
  | Undefined => Some (lit "undefined")
  | Null => Some (lit "null")
  | Bool true => Some (lit "true")
  | Bool false => Some (lit "false")
  | Num x => Some (Number_toString x)
  | Str s => Some s
  | Arr items =>
      option_map (join_with (lit ","))
        ((fix elements (l : list value) : option (list jsstring) :=
            match l with
            | [] => Some []
            | i :: r =>
                match match i with
                      | Undefined | Null => Some []
                      | _ => to_string i
                      end, elements r with
                | Some s, Some ss => Some (s :: ss)
                | _, _ => None
                end
            end) items)
  | Obj props =>
      if has_key props (lit "toString") then None else Some (lit "[object Object]")
  end.

End WithRuntime.

(** *** Number.prototype.toFixed *)

Definition digits (n : Z) : jsstring :=
  map N_of_ascii (list_ascii_of_string (NilZero.string_of_uint (N.to_uint (Z.to_N n)))).

(** The integer [n] for which [n / 10^f] is closest to [m * 2^e], the
    larger one on a tie. *)
Definition nearest_scaled (m : positive) (e : Z) (f : nat) : Z :=
  let s := Zpos m * 10 ^ Z.of_nat f in
  if 0 <=? e then s * 2 ^ e
  else (2 * s + 2 ^ (- e)) / 2 ^ (- e + 1).

(** [m * 2^e >= 10^21]. *)
Definition at_least_1e21 (m : positive) (e : Z) : bool :=
  if 0 <=? e then 10 ^ 21 <=? Zpos m * 2 ^ e
  else 10 ^ 21 * 2 ^ (- e) <=? Zpos m.

Definition fixed_digits (n : Z) (f : nat) : jsstring :=
  let m := digits n in
  let m := repeat 48%N (S f - List.length m) ++ m in
  match f with
  | O => m
  | _ => firstn (List.length m - f) m ++ [46%N] ++ skipn (List.length m - f) m
  end.

Definition toFixed {RT : Runtime} (x : number) (f : nat) : jsstring :=
  match x with
  | S754_nan | S754_infinity _ => Number_toString x
  | S754_zero _ => fixed_digits 0 f
  | S754_finite s m e =>
      if at_least_1e21 m e then Number_toString x
      else (if s then [45%N] else []) ++ fixed_digits (nearest_scaled m e f) f
  end.

End Js.

(* ===================================================================== *)
(** ** services/api.ts *)
(* ===================================================================== *)

(** Type annotations are erased at run time, so a parameter that is passed
    on as it is is a [value]; a parameter with a default takes the default
    exactly when the argument is [undefined].  The ids, which a template
    literal splices into the path, are what their annotation says:
    numbers. *)

Module Api.
Import Js.

Inductive Method := GET | POST | PUT | DELETE.

(** What [axios.create] is given. *)
Record AxiosInstance := {
  baseURL : jsstring;
  timeout : number
}.

(** A request as the instance sends it: the instance it was made on, the
    method and path, the body and the query parameters ([undefined] when
    the call passes none). *)
Record Request := {
  client : AxiosInstance;
  method : Method;
  url : jsstring;
  data : value;
  params : value
}.

Definition axios_get (inst : AxiosInstance) (u : jsstring) (ps : value) : Request :=
  {| client := inst; method := GET; url := u; data := Undefined; params := ps |}.
Definition axios_post (inst : AxiosInstance) (u : jsstring) (d : value) : Request :=
  {| client := inst; method := POST; url := u; data := d; params := Undefined |}.
Definition axios_put (inst : AxiosInstance) (u : jsstring) (d : value) : Request :=
  {| client := inst; method := PUT; url := u; data := d; params := Undefined |}.
Definition axios_delete (inst : AxiosInstance) (u : jsstring) : Request :=
  {| client := inst; method := DELETE; url := u; data := Undefined; params := Undefined |}.

Definition api : AxiosInstance :=
  {| baseURL := lit "/api"; timeout := of_Z 30000 |}.

(** [(x = d) => ...]. *)
Definition default (d : value) (x : value) : value :=
  match x with
  | Undefined => d
  | _ => x
  end.

Module taskApi.
Definition runTask (task taskId : value) : Request :=
  axios_post api (lit "/tasks/run") (Obj [(lit "task", task); (lit "task_id", taskId)]).

Definition getTask {RT : Runtime} (taskId : number) : Request :=
  axios_get api (lit "/tasks/" ++ Number_toString taskId) Undefined.

Definition getTasks (skip limit : value) : Request :=
  let skip := default (Num (of_Z 0)) skip in
  let limit := default (Num (of_Z 100)) limit in
  axios_get api (lit "/tasks") (Obj [(lit "skip", skip); (lit "limit", limit)]).

Definition deleteTask {RT : Runtime} (taskId : number) : Request :=
  axios_delete api (lit "/tasks/" ++ Number_toString taskId).
End taskApi.

Module businessKnowledgeApi.
Definition create (data : value) : Request :=
  axios_post api (lit "/business-knowledge") data.

Definition get {RT : Runtime} (id : number) : Request :=
  axios_get api (lit "/business-knowledge/" ++ Number_toString id) Undefined.

Definition update {RT : Runtime} (id : number) (data : value) : Request :=
  axios_put api (lit "/business-knowledge/" ++ Number_toString id) data.

Definition delete {RT : Runtime} (id : number) : Request :=
  axios_delete api (lit "/business-knowledge/" ++ Number_toString id).

Definition searchByQuestion (query topK threshold : value) : Request :=
  let topK := default (Num (of_Z 5)) topK in
  let threshold := default (Num (of_Z 0)) threshold in
  axios_post api (lit "/business-knowledge/search/question")
    (Obj [(lit "query_text", query); (lit "top_k", topK); (lit "threshold", threshold)]).

Definition searchByAnswer (query topK threshold : value) : Request :=
  let topK := default (Num (of_Z 5)) topK in
  let threshold := default (Num (of_Z 0)) threshold in
  axios_post api (lit "/business-knowledge/search/answer")
    (Obj [(lit "query_text", query); (lit "top_k", topK); (lit "threshold", threshold)]).

Definition count : Request :=
  axios_get api (lit "/business-knowledge/count") Undefined.

Definition list (skip limit : value) : Request :=
  let skip := default (Num (of_Z 0)) skip in
  let limit := default (Num (of_Z 100)) limit in
  axios_get api (lit "/business-knowledge") (Obj [(lit "skip", skip); (lit "limit", limit)]).
End businessKnowledgeApi.

Module reasoningKnowledgeApi.
Definition create (data : value) : Request :=
  axios_post api (lit "/reasoning-knowledge") data.

Definition get {RT : Runtime} (id : number) : Request :=
  axios_get api (lit "/reasoning-knowledge/" ++ Number_toString id) Undefined.

Definition update {RT : Runtime} (id : number) (data : value) : Request :=
  axios_put api (lit "/reasoning-knowledge/" ++ Number_toString id) data.

Definition delete {RT : Runtime} (id : number) : Request :=
  axios_delete api (lit "/reasoning-knowledge/" ++ Number_toString id).

Definition searchByTask (query topK threshold : value) : Request :=
  let topK := default (Num (of_Z 5)) topK in
  let threshold := default (Num (of_Z 0)) threshold in
  axios_post api (lit "/reasoning-knowledge/search/task")
    (Obj [(lit "query_text", query); (lit "top_k", topK); (lit "threshold", threshold)]).

Definition searchByStep (query topK threshold : value) : Request :=
  let topK := default (Num (of_Z 5)) topK in
  let threshold := default (Num (of_Z 0)) threshold in
  axios_post api (lit "/reasoning-knowledge/search/step")
    (Obj [(lit "query_text", query); (lit "top_k", topK); (lit "threshold", threshold)]).

Definition count : Request :=
  axios_get api (lit "/reasoning-knowledge/count") Undefined.

Definition list (skip limit : value) : Request :=
  let skip := default (Num (of_Z 0)) skip in
  let limit := default (Num (of_Z 100)) limit in
  axios_get api (lit "/reasoning-knowledge") (Obj [(lit "skip", skip); (lit "limit", limit)]).
End reasoningKnowledgeApi.

(** One constructor for each exported function, applied to its arguments. *)
Inductive Call :=
| task_runTask (task taskId : value)
| task_getTask (taskId : number)
| task_getTasks (skip limit : value)
| task_deleteTask (taskId : number)
| business_create (data : value)
| business_get (id : number)
| business_list (skip limit : value)
| business_update (id : number) (data : value)
| business_delete (id : number)
| business_searchByQuestion (query topK threshold : value)
| business_searchByAnswer (query topK threshold : value)
| business_count
| reasoning_create (data : value)
| reasoning_get (id : number)
| reasoning_list (skip limit : value)
| reasoning_update (id : number) (data : value)
| reasoning_delete (id : number)
| reasoning_searchByTask (query topK threshold : value)
| reasoning_searchByStep (query topK threshold : value)
| reasoning_count.

Definition request_of {RT : Runtime} (c : Call) : Request :=
  match c with
  | task_runTask task taskId => taskApi.runTask task taskId
  | task_getTask taskId => taskApi.getTask taskId
  | task_getTasks skip limit => taskApi.getTasks skip limit
  | task_deleteTask taskId => taskApi.deleteTask taskId
  | business_create d => businessKnowledgeApi.create d
  | business_get id => businessKnowledgeApi.get id
  | business_list skip limit => businessKnowledgeApi.list skip limit
  | business_update id d => businessKnowledgeApi.update id d
  | business_delete id => businessKnowledgeApi.delete id
  | business_searchByQuestion q k t => businessKnowledgeApi.searchByQuestion q k t
  | business_searchByAnswer q k t => businessKnowledgeApi.searchByAnswer q k t
  | business_count => businessKnowledgeApi.count
  | reasoning_create d => reasoningKnowledgeApi.create d
  | reasoning_get id => reasoningKnowledgeApi.get id
  | reasoning_list skip limit => reasoningKnowledgeApi.list skip limit
  | reasoning_update id d => reasoningKnowledgeApi.update id d
  | reasoning_delete id => reasoningKnowledgeApi.delete id
  | reasoning_searchByTask q k t => reasoningKnowledgeApi.searchByTask q k t
  | reasoning_searchByStep q k t => reasoningKnowledgeApi.searchByStep q k t
  | reasoning_count => reasoningKnowledgeApi.count
  end.

End Api.

(* ===================================================================== *)
(** ** What a handler does: requests, notifications, timers, state *)
(* ===================================================================== *)

Module Eff.
Import Js Api.

(** [message.success], [message.error], [message.warning]. *)
Inductive Level := success | error | warning.

(** The closures the pages hand to the browser or to antd, named. *)
Inductive Callback :=
| refresh_tasks                      (* [() => { fetchTasks() }] *)
| delete_task_onOk (taskId : number). (* the [onOk] of the delete dialog *)

(** What the outside sees of a handler, in order. *)
Inductive Effect :=
| Sent (r : Request)
| Message (l : Level) (text : jsstring)
| SetTimeout (cb : Callback) (ms : number)
| ModalConfirm (title content : jsstring) (onOk : Callback).

Record AxiosResponse := { response_data : value }.

(** What a [catch] clause can receive: the rejection of a request (with
    the response when the server answered, without it on a timeout or a
    network failure), the rejection of [form.validateFields] and a
    [TypeError] of the language. *)
Inductive Exn :=
| AxiosError (response : option AxiosResponse) (message : jsstring)
| ValidateError (errorFields : list value)
| TypeError (message : jsstring).

(** [error.errorFields], [error.response?.data?.detail], [error.message]. *)
Definition exn_errorFields (e : Exn) : value :=
  match e with
  | ValidateError fs => Arr fs
  | _ => Undefined
  end.

Definition exn_detail (e : Exn) : value :=
  match e with
  | AxiosError (Some r) _ => opt_member (response_data r) (lit "detail")
  | _ => Undefined
  end.

Definition exn_message (e : Exn) : value :=
  match e with
  | AxiosError _ m => Str m
  | TypeError m => Str m
  | ValidateError _ => Undefined
  end.

(** How a promise settles. *)
Inductive Settled (A : Type) :=
| Fulfilled (a : A)
| Rejected (e : Exn).
Arguments Fulfilled {A} a.
Arguments Rejected {A} e.

(** The two antd form instances of a knowledge page, and how
    [validateFields] settles: with the field values, or rejected with the
    fields that broke a rule. *)
Inductive FormRef := form | searchForm.

Inductive Validation :=
| Valid (values : value)
| Invalid (errorFields : list value).

(** How the backend settles a request: resolved with a response, or failed
    with an error that carries the response when the server answered and
    none on a timeout or a network failure. *)
Inductive Outcome :=
| Resolved (r : AxiosResponse)
| Failed (response : option AxiosResponse) (message : jsstring).

(** The world a handler runs in: the backend answers the [n]-th request of
    the run, the forms answer [validateFields]. *)
Record Env := {
  backend : nat -> Request -> Outcome;
  forms : FormRef -> Validation
}.

Record World (S : Type) := {
  page : S;
  trace : list Effect
}.
Arguments page {S} w.
Arguments trace {S} w.

Definition requests {S} (w : World S) : list Request :=
  flat_map (fun e => match e with Sent r => [r] | _ => [] end) (trace w).

(** A handler: runs to completion from a world, returning or throwing. *)
Definition M (S A : Type) : Type := Env -> World S -> Settled A * World S.

Definition ret {S A} (a : A) : M S A := fun _ w => (Fulfilled a, w).

Definition bind {S A B} (m : M S A) (k : A -> M S B) : M S B :=
  fun env w =>
    match m env w with
    | (Fulfilled a, w') => k a env w'
    | (Rejected e, w') => (Rejected e, w')
    end.

Definition throw {S A} (e : Exn) : M S A := fun _ w => (Rejected e, w).

(** [try { m } catch (error) { h error }]. *)
Definition try_catch {S A} (m : M S A) (h : Exn -> M S A) : M S A :=
  fun env w =>
    match m env w with
    | (Fulfilled a, w') => (Fulfilled a, w')
    | (Rejected e, w') => h e env w'
    end.

(** [try { m } finally { f }]. *)
Definition try_finally {S A} (m : M S A) (f : M S unit) : M S A :=
  fun env w =>
    let (r, w') := m env w in
    match f env w' with
    | (Fulfilled _, w'') => (r, w'')
    | (Rejected e, w'') => (Rejected e, w'')
    end.

Definition gets {S A} (f : S -> A) : M S A := fun _ w => (Fulfilled (f (page w)), w).

Definition modify {S} (f : S -> S) : M S unit :=
  fun _ w => (Fulfilled tt, {| page := f (page w); trace := trace w |}).

Definition emit {S} (e : Effect) : M S unit :=
  fun _ w => (Fulfilled tt, {| page := page w; trace := trace w ++ [e] |}).

(** [await api.method(...)]: the request is sent, the backend settles it. *)
Definition await {S} (r : Request) : M S AxiosResponse :=
  fun env w =>
    (match backend env (List.length (requests w)) r with
     | Resolved resp => Fulfilled resp
     | Failed resp m => Rejected (AxiosError resp m)
     end,
     {| page := page w; trace := trace w ++ [Sent r] |}).

(** [await f.validateFields()]. *)
Definition validateFields {S} (f : FormRef) : M S value :=
  fun env w =>
    match forms env f with
    | Valid values => (Fulfilled values, w)
    | Invalid fs => (Rejected (ValidateError fs), w)
    end.

(** [v.k] inside a handler. *)
Definition get_member {RT : Runtime} {S} (v : value) (k : jsstring) : M S value :=
  match member v k with
  | Some x => ret x
  | None => throw (TypeError (TypeError_message v k))
  end.

(** ['...' + v]: the text of [v], or the [TypeError] of the conversion. *)
Definition string_of {RT : Runtime} {S} (v : value) : M S jsstring :=
  match to_string v with
  | Some text => ret text
  | None => throw (TypeError ToPrimitive_message)
  end.

(** [f()] as a statement, the promise it returns dropped: what the call
    does happens, how it settles is lost to the caller.  The pages make
    such a call only as the last statement of a block, so that what it does
    after its first [await] follows all the caller does. *)
Definition not_awaited {S A} (m : M S A) : M S unit :=
  fun env w => (Fulfilled tt, snd (m env w)).

Definition message_success {S} (text : jsstring) : M S unit := emit (Message success text).
Definition message_error {S} (text : jsstring) : M S unit := emit (Message error text).
Definition message_warning {S} (text : jsstring) : M S unit := emit (Message warning text).
Definition setTimeout {S} (cb : Callback) (ms : number) : M S unit := emit (SetTimeout cb ms).

Definition run {S A} (m : M S A) (env : Env) (s : S) : Settled A * World S :=
  m env {| page := s; trace := [] |}.

Declare Scope eff_scope.
Delimit Scope eff_scope with eff.
Notation "x <- m ;; k" := (bind m (fun x => k))
  (at level 100, m at next level, right associativity) : eff_scope.
Notation "m ;; k" := (bind m (fun _ => k))
  (at level 100, right associativity) : eff_scope.

End Eff.

(* ===================================================================== *)
(** ** pages/TasksPage.tsx *)
(* ===================================================================== *)

Module TasksPage.
Import Js Api Eff.
Local Open Scope eff_scope.

(** The [useState] cells of the component.  [tasks] and [selectedTask] hold
    whatever the backend returned. *)
Record State := {
  tasks : value;
  loading : bool;
  modalVisible : bool;
  detailModalVisible : bool;
  selectedTask : value;
  taskInput : jsstring
}.

Definition initial : State :=
  {| tasks := Arr []; loading := false; modalVisible := false;
     detailModalVisible := false; selectedTask := Null; taskInput := [] |}.

Definition setTasks (v : value) : M State unit :=
  modify (fun s => {| tasks := v; loading := loading s; modalVisible := modalVisible s;
                      detailModalVisible := detailModalVisible s;
                      selectedTask := selectedTask s; taskInput := taskInput s |}).
Definition setLoading (b : bool) : M State unit :=
  modify (fun s => {| tasks := tasks s; loading := b; modalVisible := modalVisible s;
                      detailModalVisible := detailModalVisible s;
                      selectedTask := selectedTask s; taskInput := taskInput s |}).
Definition setModalVisible (b : bool) : M State unit :=
  modify (fun s => {| tasks := tasks s; loading := loading s; modalVisible := b;
                      detailModalVisible := detailModalVisible s;
                      selectedTask := selectedTask s; taskInput := taskInput s |}).
Definition setDetailModalVisible (b : bool) : M State unit :=
  modify (fun s => {| tasks := tasks s; loading := loading s; modalVisible := modalVisible s;
                      detailModalVisible := b;
                      selectedTask := selectedTask s; taskInput := taskInput s |}).
Definition setSelectedTask (v : value) : M State unit :=
  modify (fun s => {| tasks := tasks s; loading := loading s; modalVisible := modalVisible s;
                      detailModalVisible := detailModalVisible s;
                      selectedTask := v; taskInput := taskInput s |}).
Definition setTaskInput (t : jsstring) : M State unit :=
  modify (fun s => {| tasks := tasks s; loading := loading s; modalVisible := modalVisible s;
                      detailModalVisible := detailModalVisible s;
                      selectedTask := selectedTask s; taskInput := t |}).

Section Handlers.
Context {RT : Runtime}.

(** ['prefix' + (error.response?.data?.detail || error.message)] *)
Definition failure_text (prefix : jsstring) (e : Exn) : M State jsstring :=
  text <- string_of (or_else (exn_detail e) (exn_message e)) ;;
  ret (prefix ++ text).

Definition fetchTasks : M State unit :=
  setLoading true ;;
  try_finally
    (try_catch
       (response <- await (taskApi.getTasks (Num (of_Z 0)) (Num (of_Z 100))) ;;
        setTasks (response_data response))
       (fun e =>
          text <- failure_text (lit "获取任务列表失败: ") e ;;
          message_error text))
    (setLoading false).

Definition handleRunTask : M State unit :=
  input <- gets taskInput ;;
  if negb (truthy (Str (trim input))) then
    message_warning (lit "请输入任务描述")
  else
    try_catch
      (response <- await (taskApi.runTask (Str (trim input)) Undefined) ;;
       task_id <- get_member (response_data response) (lit "task_id") ;;
       id_text <- string_of task_id ;;
       message_success (lit "任务已添加到执行队列，ID: " ++ id_text) ;;
       setModalVisible false ;;
       setTaskInput [] ;;
       setTimeout refresh_tasks (of_Z 1000))
      (fun e =>
         text <- failure_text (lit "启动任务失败: ") e ;;
         message_error text).

Definition handleViewDetail (taskId : number) : M State unit :=
  try_catch
    (response <- await (taskApi.getTask taskId) ;;
     setSelectedTask (response_data response) ;;
     setDetailModalVisible true)
    (fun e =>
       text <- failure_text (lit "获取任务详情失败: ") e ;;
       message_error text).

(** The handler only opens the dialog; the deletion is the dialog's [onOk]. *)
Definition handleDelete (taskId : number) : M State unit :=
  emit (ModalConfirm (lit "确认删除") (lit "确定要删除这个任务吗？") (delete_task_onOk taskId)).

Definition handleDelete_onOk (taskId : number) : M State unit :=
  try_catch
    (_ <- await (taskApi.deleteTask taskId) ;;
     message_success (lit "删除成功") ;;
     not_awaited fetchTasks)
    (fun e =>
       text <- failure_text (lit "删除失败: ") e ;;
       message_error text).

(** The browser (for a timer) or antd (for a confirmed dialog) calls back. *)
Definition call (cb : Callback) : M State unit :=
  match cb with
  | refresh_tasks => not_awaited fetchTasks
  | delete_task_onOk taskId => handleDelete_onOk taskId
  end.

End Handlers.

(** *** The column renderers *)

(** A field declared [f?: T] that the code also tests against [null]. *)
Inductive field (T : Type) :=
| absent          (* [undefined] *)
| null
| present (x : T).
Arguments absent {T}.
Arguments null {T}.
Arguments present {T} x.

(** [<Tag color=...>text</Tag>] *)
Record Tag := { color : jsstring; label : jsstring }.

Definition unknown_tag : Tag := {| color := lit "default"; label := lit "未知" |}.
Definition yes_tag : Tag := {| color := lit "success"; label := lit "是" |}.
Definition no_tag : Tag := {| color := lit "error"; label := lit "否" |}.

Definition render_all_success (allSuccess : field bool) : Tag :=
  match allSuccess with
  | null | absent => unknown_tag
  | present b => if b then yes_tag else no_tag
  end.

Definition render_can_execute (canExecute : field bool) : Tag :=
  match canExecute with
  | null | absent => unknown_tag
  | present b => if b then yes_tag else no_tag
  end.

(** The two items of the detail view. *)
Definition detail_all_success (all_success : field bool) : jsstring :=
  match all_success with
  | null | absent => lit "未知"
  | present b => if b then lit "是" else lit "否"
  end.

Definition detail_can_execute (can_execute : field bool) : jsstring :=
  match can_execute with
  | null | absent => lit "未知"
  | present b => if b then lit "是" else lit "否"
  end.

(** The renderer of the final-result column; [text] is a string when the
    record has one.  It returns a string or, from a parsed object, whatever
    its [summary] holds.  The [try] block is an [option]: [None] when
    [JSON.parse] or the read of [summary] throws. *)
Definition render_final_result {RT : Runtime} (text : field jsstring) : value :=
  match text with
  | absent | null | present [] => Str (lit "-")
  | present t =>
      let attempt :=
        match JSON_parse t with
        | Some parsed =>
            match member parsed (lit "summary") with
            | Some summary => Some (or_else summary (Str (substring0 t 50 ++ lit "...")))
            | None => None
            end
        | None => None
        end in
      match attempt with
      | Some shown => shown
      | None => Str (if 50 <? length t then substring0 t 50 ++ lit "..." else t)
      end
  end.

End TasksPage.

(* ===================================================================== *)
(** ** pages/BusinessKnowledgePage.tsx *)
(* ===================================================================== *)

Module BusinessKnowledgePage.
Import Js Api Eff.
Local Open Scope eff_scope.

(** A row of the table, as the interface declares it. *)
Record BusinessKnowledge := {
  id : number;
  question_text : jsstring;
  answer_text : jsstring;
  created_at : option jsstring;
  updated_at : option jsstring;
  similarity : option number
}.

(** The [useState] cells; [editingItem] is [None] when it is [null]. *)
Record State := {
  knowledgeList : value;
  loading : bool;
  modalVisible : bool;
  editingItem : option BusinessKnowledge;
  searchResults : value;
  searchLoading : bool
}.

Definition initial : State :=
  {| knowledgeList := Arr []; loading := false; modalVisible := false;
     editingItem := None; searchResults := Arr []; searchLoading := false |}.

Definition setKnowledgeList (v : value) : M State unit :=
  modify (fun s => {| knowledgeList := v; loading := loading s;
                      modalVisible := modalVisible s; editingItem := editingItem s;
                      searchResults := searchResults s; searchLoading := searchLoading s |}).
Definition setLoading (b : bool) : M State unit :=
  modify (fun s => {| knowledgeList := knowledgeList s; loading := b;
                      modalVisible := modalVisible s; editingItem := editingItem s;
                      searchResults := searchResults s; searchLoading := searchLoading s |}).
Definition setModalVisible (b : bool) : M State unit :=
  modify (fun s => {| knowledgeList := knowledgeList s; loading := loading s;
                      modalVisible := b; editingItem := editingItem s;
                      searchResults := searchResults s; searchLoading := searchLoading s |}).
Definition setSearchResults (v : value) : M State unit :=
  modify (fun s => {| knowledgeList := knowledgeList s; loading := loading s;
                      modalVisible := modalVisible s; editingItem := editingItem s;
                      searchResults := v; searchLoading := searchLoading s |}).
Definition setSearchLoading (b : bool) : M State unit :=
  modify (fun s => {| knowledgeList := knowledgeList s; loading := loading s;
                      modalVisible := modalVisible s; editingItem := editingItem s;
                      searchResults := searchResults s; searchLoading := b |}).

Section Handlers.
Context {RT : Runtime}.

(** ['prefix' + (error.response?.data?.detail || error.message)] *)
Definition failure_text (prefix : jsstring) (e : Exn) : M State jsstring :=
  text <- string_of (or_else (exn_detail e) (exn_message e)) ;;
  ret (prefix ++ text).

Definition fetchKnowledge : M State unit :=
  setLoading true ;;
  try_finally
    (try_catch
       (response <- await (businessKnowledgeApi.list (Num (of_Z 0)) (Num (of_Z 100))) ;;
        setKnowledgeList (response_data response))
       (fun e =>
          text <- failure_text (lit "获取知识列表失败: ") e ;;
          message_error text))
    (setLoading false).

Definition handleSubmit : M State unit :=
  try_catch
    (values <- validateFields form ;;
     item <- gets editingItem ;;
     match item with
     | Some editing =>
         _ <- await (businessKnowledgeApi.update (id editing) values) ;;
         message_success (lit "更新成功")
     | None =>
         _ <- await (businessKnowledgeApi.create values) ;;
         message_success (lit "创建成功")
     end ;;
     setModalVisible false ;;
     not_awaited fetchKnowledge)
    (fun e =>
       if truthy (exn_errorFields e) then ret tt
       else
         text <- failure_text (lit "操作失败: ") e ;;
         message_error text).

Definition handleDelete (id : number) : M State unit :=
  try_catch
    (_ <- await (businessKnowledgeApi.delete id) ;;
     message_success (lit "删除成功") ;;
     not_awaited fetchKnowledge)
    (fun e =>
       text <- failure_text (lit "删除失败: ") e ;;
       message_error text).

Definition handleSearch (type : jsstring) : M State unit :=
  try_finally
    (try_catch
       (values <- validateFields searchForm ;;
        setSearchLoading true ;;
        query_text <- get_member values (lit "query_text") ;;
        top_k <- get_member values (lit "top_k") ;;
        threshold <- get_member values (lit "threshold") ;;
        response <-
          (if jsstring_eqb type (lit "question") then
             await (businessKnowledgeApi.searchByQuestion query_text
                      (or_else top_k (Num (of_Z 5))) (or_else threshold (Num (of_Z 0))))
           else
             await (businessKnowledgeApi.searchByAnswer query_text
                      (or_else top_k (Num (of_Z 5))) (or_else threshold (Num (of_Z 0))))) ;;
        setSearchResults (response_data response))
       (fun e =>
          if truthy (exn_errorFields e) then ret tt
          else
            text <- failure_text (lit "搜索失败: ") e ;;
            message_error text))
    (setSearchLoading false).

(** The renderer of the similarity column; [None] is [undefined]. *)
Definition render_similarity (similarity : option number) : jsstring :=
  match similarity with
  | Some x => toFixed (mul x (of_Z 100)) 2 ++ lit "%"
  | None => lit "-"
  end.

End Handlers.

End BusinessKnowledgePage.

(* ===================================================================== *)
(** ** pages/ReasoningKnowledgePage.tsx *)
(* ===================================================================== *)

Module ReasoningKnowledgePage.
Import Js Api Eff.
Local Open Scope eff_scope.

(** A row of the table, as the interface declares it. *)
Record ReasoningKnowledge := {
  id : number;
  task_text : jsstring;
  step_text : jsstring;
  created_at : option jsstring;
  updated_at : option jsstring;
  similarity : option number
}.

(** The [useState] cells; [editingItem] is [None] when it is [null]. *)
Record State := {
  knowledgeList : value;
  loading : bool;
  modalVisible : bool;
  editingItem : option ReasoningKnowledge;
  searchResults : value;
  searchLoading : bool
}.

Definition initial : State :=
  {| knowledgeList := Arr []; loading := false; modalVisible := false;
     editingItem := None; searchResults := Arr []; searchLoading := false |}.

Definition setKnowledgeList (v : value) : M State unit :=
  modify (fun s => {| knowledgeList := v; loading := loading s;
                      modalVisible := modalVisible s; editingItem := editingItem s;
                      searchResults := searchResults s; searchLoading := searchLoading s |}).
Definition setLoading (b : bool) : M State unit :=
  modify (fun s => {| knowledgeList := knowledgeList s; loading := b;
                      modalVisible := modalVisible s; editingItem := editingItem s;
                      searchResults := searchResults s; searchLoading := searchLoading s |}).
Definition setModalVisible (b : bool) : M State unit :=
  modify (fun s => {| knowledgeList := knowledgeList s; loading := loading s;
                      modalVisible := b; editingItem := editingItem s;
                      searchResults := searchResults s; searchLoading := searchLoading s |}).
Definition setSearchResults (v : value) : M State unit :=
  modify (fun s => {| knowledgeList := knowledgeList s; loading := loading s;
                      modalVisible := modalVisible s; editingItem := editingItem s;
                      searchResults := v; searchLoading := searchLoading s |}).
Definition setSearchLoading (b : bool) : M State unit :=
  modify (fun s => {| knowledgeList := knowledgeList s; loading := loading s;
                      modalVisible := modalVisible s; editingItem := editingItem s;
                      searchResults := searchResults s; searchLoading := b |}).

Section Handlers.
Context {RT : Runtime}.

(** ['prefix' + (error.response?.data?.detail || error.message)] *)
Definition failure_text (prefix : jsstring) (e : Exn) : M State jsstring :=
  text <- string_of (or_else (exn_detail e) (exn_message e)) ;;
  ret (prefix ++ text).

Definition fetchKnowledge : M State unit :=
  setLoading true ;;
  try_finally
    (try_catch
       (response <- await (reasoningKnowledgeApi.list (Num (of_Z 0)) (Num (of_Z 100))) ;;
        setKnowledgeList (response_data response))
       (fun e =>
          text <- failure_text (lit "获取知识列表失败: ") e ;;
          message_error text))
    (setLoading false).

Definition handleSubmit : M State unit :=
  try_catch
    (values <- validateFields form ;;
     item <- gets editingItem ;;
     match item with
     | Some editing =>
         _ <- await (reasoningKnowledgeApi.update (id editing) values) ;;
         message_success (lit "更新成功")
     | None =>
         _ <- await (reasoningKnowledgeApi.create values) ;;
         message_success (lit "创建成功")
     end ;;
     setModalVisible false ;;
     not_awaited fetchKnowledge)
    (fun e =>
       if truthy (exn_errorFields e) then ret tt
       else
         text <- failure_text (lit "操作失败: ") e ;;
         message_error text).

Definition handleDelete (id : number) : M State unit :=
  try_catch
    (_ <- await (reasoningKnowledgeApi.delete id) ;;
     message_success (lit "删除成功") ;;
     not_awaited fetchKnowledge)
    (fun e =>
       text <- failure_text (lit "删除失败: ") e ;;
       message_error text).

Definition handleSearch (type : jsstring) : M State unit :=
  try_finally
    (try_catch
       (values <- validateFields searchForm ;;
        setSearchLoading true ;;
        query_text <- get_member values (lit "query_text") ;;
        top_k <- get_member values (lit "top_k") ;;
        threshold <- get_member values (lit "threshold") ;;
        response <-
          (if jsstring_eqb type (lit "task") then
             await (reasoningKnowledgeApi.searchByTask query_text
                      (or_else top_k (Num (of_Z 5))) (or_else threshold (Num (of_Z 0))))
           else
             await (reasoningKnowledgeApi.searchByStep query_text
                      (or_else top_k (Num (of_Z 5))) (or_else threshold (Num (of_Z 0))))) ;;
        setSearchResults (response_data response))
       (fun e =>
          if truthy (exn_errorFields e) then ret tt
          else
            text <- failure_text (lit "搜索失败: ") e ;;
            message_error text))
    (setSearchLoading false).

(** The renderer of the similarity column; [None] is [undefined]. *)
Definition render_similarity (similarity : option number) : jsstring :=
  match similarity with
  | Some x => toFixed (mul x (of_Z 100)) 2 ++ lit "%"
  | None => lit "-"
  end.

End Handlers.

End ReasoningKnowledgePage.

(* ===================================================================== *)
(** ** pages/TasksPage.tsx: the inline handlers of the view *)
(* ===================================================================== *)

Module TasksView.
Import Js Api Eff.
Local Open Scope eff_scope.

(** [onClick={() => setModalVisible(true)}] of the add button. *)
Definition add_onClick : M TasksPage.State unit :=
  TasksPage.setModalVisible true.

(** [onChange={(e) => setTaskInput(e.target.value)}] of the text area. *)
Definition input_onChange (target_value : jsstring) : M TasksPage.State unit :=
  TasksPage.setTaskInput target_value.

(** [onCancel] of the add dialog. *)
Definition add_onCancel : M TasksPage.State unit :=
  TasksPage.setModalVisible false ;;
  TasksPage.setTaskInput [].

(** [onCancel] of the detail dialog. *)
Definition detail_onCancel : M TasksPage.State unit :=
  TasksPage.setDetailModalVisible false.

(** [useEffect(() => { fetchTasks() }, [])]: what runs once on mount. *)
Definition on_mount {RT : Runtime} : M TasksPage.State unit :=
  not_awaited TasksPage.fetchTasks.


End TasksView.

(* ===================================================================== *)
(** ** pages/BusinessKnowledgePage.tsx: the edit dialog *)
(* ===================================================================== *)

(** [handleCreate], [handleEdit] and the dialog's [onCancel] write to the
    antd form instance [form] as well as to the page state.  The instance
    is modelled by its field store: [resetFields] empties it (no item of
    this form declares an initial value), [setFieldsValue] overwrites the
    fields it is given. *)
Module BusinessKnowledgeModal.
Import Js Api Eff.
Local Open Scope eff_scope.

Record Editor := {
  state : BusinessKnowledgePage.State;
  fields : list (jsstring * value)
}.

Definition set_field (k : jsstring) (v : value) (store : list (jsstring * value))
    : list (jsstring * value) :=
  (k, v) :: filter (fun kv => negb (jsstring_eqb (fst kv) k)) store.

Definition setEditingItem (v : option BusinessKnowledgePage.BusinessKnowledge) : M Editor unit :=
  modify (fun ed =>
    {| state :=
         {| BusinessKnowledgePage.knowledgeList :=
              BusinessKnowledgePage.knowledgeList (state ed);
            BusinessKnowledgePage.loading := BusinessKnowledgePage.loading (state ed);
            BusinessKnowledgePage.modalVisible :=
              BusinessKnowledgePage.modalVisible (state ed);
            BusinessKnowledgePage.editingItem := v;
            BusinessKnowledgePage.searchResults :=
              BusinessKnowledgePage.searchResults (state ed);
            BusinessKnowledgePage.searchLoading :=
              BusinessKnowledgePage.searchLoading (state ed) |};
       fields := fields ed |}).

Definition setModalVisible (b : bool) : M Editor unit :=
  modify (fun ed =>
    {| state :=
         {| BusinessKnowledgePage.knowledgeList :=
              BusinessKnowledgePage.knowledgeList (state ed);
            BusinessKnowledgePage.loading := BusinessKnowledgePage.loading (state ed);
            BusinessKnowledgePage.modalVisible := b;
            BusinessKnowledgePage.editingItem :=
              BusinessKnowledgePage.editingItem (state ed);
            BusinessKnowledgePage.searchResults :=
              BusinessKnowledgePage.searchResults (state ed);
            BusinessKnowledgePage.searchLoading :=
              BusinessKnowledgePage.searchLoading (state ed) |};
       fields := fields ed |}).

Definition form_resetFields : M Editor unit :=
  modify (fun ed => {| state := state ed; fields := [] |}).

Definition form_setFieldsValue (vs : list (jsstring * value)) : M Editor unit :=
  modify (fun ed =>
    {| state := state ed;
       fields := fold_right (fun kv store => set_field (fst kv) (snd kv) store)
                   (fields ed) vs |}).

Definition handleCreate : M Editor unit :=
  setEditingItem None ;;
  form_resetFields ;;
  setModalVisible true.

Definition handleEdit (record : BusinessKnowledgePage.BusinessKnowledge) : M Editor unit :=
  setEditingItem (Some record) ;;
  form_setFieldsValue [(lit "question_text", Str (BusinessKnowledgePage.question_text record));
                       (lit "answer_text", Str (BusinessKnowledgePage.answer_text record))] ;;
  setModalVisible true.

(** [onCancel] of the dialog. *)
Definition modal_onCancel : M Editor unit :=
  setModalVisible false ;;
  form_resetFields.

(** [title={editingItem ? '编辑知识' : '添加知识'}] *)
Definition modal_title (ed : Editor) : jsstring :=
  match BusinessKnowledgePage.editingItem (state ed) with
  | Some _ => lit "编辑知识"
  | None => lit "添加知识"
  end.

End BusinessKnowledgeModal.

(* ===================================================================== *)
(** ** pages/ReasoningKnowledgePage.tsx: the edit dialog *)
(* ===================================================================== *)

(** [handleCreate], [handleEdit] and the dialog's [onCancel] write to the
    antd form instance [form] as well as to the page state.  The instance
    is modelled by its field store: [resetFields] empties it (no item of
    this form declares an initial value), [setFieldsValue] overwrites the
    fields it is given. *)
Module ReasoningKnowledgeModal.
Import Js Api Eff.
Local Open Scope eff_scope.

Record Editor := {
  state : ReasoningKnowledgePage.State;
  fields : list (jsstring * value)
}.

Definition set_field (k : jsstring) (v : value) (store : list (jsstring * value))
    : list (jsstring * value) :=
  (k, v) :: filter (fun kv => negb (jsstring_eqb (fst kv) k)) store.

Definition setEditingItem (v : option ReasoningKnowledgePage.ReasoningKnowledge) : M Editor unit :=
  modify (fun ed =>
    {| state :=
         {| ReasoningKnowledgePage.knowledgeList :=
              ReasoningKnowledgePage.knowledgeList (state ed);
            ReasoningKnowledgePage.loading := ReasoningKnowledgePage.loading (state ed);
            ReasoningKnowledgePage.modalVisible :=
              ReasoningKnowledgePage.modalVisible (state ed);
            ReasoningKnowledgePage.editingItem := v;
            ReasoningKnowledgePage.searchResults :=
              ReasoningKnowledgePage.searchResults (state ed);
            ReasoningKnowledgePage.searchLoading :=
              ReasoningKnowledgePage.searchLoading (state ed) |};
       fields := fields ed |}).

Definition setModalVisible (b : bool) : M Editor unit :=
  modify (fun ed =>
    {| state :=
         {| ReasoningKnowledgePage.knowledgeList :=
              ReasoningKnowledgePage.knowledgeList (state ed);
            ReasoningKnowledgePage.loading := ReasoningKnowledgePage.loading (state ed);
            ReasoningKnowledgePage.modalVisible := b;
            ReasoningKnowledgePage.editingItem :=
              ReasoningKnowledgePage.editingItem (state ed);
            ReasoningKnowledgePage.searchResults :=
              ReasoningKnowledgePage.searchResults (state ed);
            ReasoningKnowledgePage.searchLoading :=
              ReasoningKnowledgePage.searchLoading (state ed) |};
       fields := fields ed |}).

Definition form_resetFields : M Editor unit :=
  modify (fun ed => {| state := state ed; fields := [] |}).

Definition form_setFieldsValue (vs : list (jsstring * value)) : M Editor unit :=
  modify (fun ed =>
    {| state := state ed;
       fields := fold_right (fun kv store => set_field (fst kv) (snd kv) store)
                   (fields ed) vs |}).

Definition handleCreate : M Editor unit :=
  setEditingItem None ;;
  form_resetFields ;;
  setModalVisible true.

Definition handleEdit (record : ReasoningKnowledgePage.ReasoningKnowledge) : M Editor unit :=
  setEditingItem (Some record) ;;
  form_setFieldsValue [(lit "task_text", Str (ReasoningKnowledgePage.task_text record));
                       (lit "step_text", Str (ReasoningKnowledgePage.step_text record))] ;;
  setModalVisible true.

(** [onCancel] of the dialog. *)
Definition modal_onCancel : M Editor unit :=
  setModalVisible false ;;
  form_resetFields.

(** [title={editingItem ? '编辑知识' : '添加知识'}] *)
Definition modal_title (ed : Editor) : jsstring :=
  match ReasoningKnowledgePage.editingItem (state ed) with
  | Some _ => lit "编辑知识"
  | None => lit "添加知识"
  end.

End ReasoningKnowledgeModal.

(* ===================================================================== *)
(** ** A run-time library for the closed examples *)
(* ===================================================================== *)

(** The theorems below hold for every [Runtime].  The closed examples need
    one.  Its [Number_toString] is exact on NaN, the infinities and the
    integers below 10^21 (which print as their decimal digits); its
    [JSON_parse] is exact on the three texts listed; the [TypeError] text
    is V8's.  Elsewhere they answer with a placeholder, and no example
    reaches there. *)
Module Sample.
Import Js.

Definition integer_toString (x : number) : jsstring :=
  match x with
  | S754_zero _ => lit "0"
  | S754_nan => lit "NaN"
  | S754_infinity false => lit "Infinity"
  | S754_infinity true => lit "-Infinity"
  | S754_finite s m e =>
      let sign := if s then lit "-" else [] in
      if at_least_1e21 m e then lit "?"
      else if 0 <=? e then sign ++ digits (Zpos m * 2 ^ e)
      else if Zpos m mod 2 ^ (- e) =? 0 then sign ++ digits (Zpos m / 2 ^ (- e))
      else lit "?"
  end.

Definition quote : jsstring := [34%N].

(** The text [{"summary":"ok"}]. *)
Definition summary_ok : jsstring :=
  lit "{" ++ quote ++ lit "summary" ++ quote ++ lit ":" ++ quote ++ lit "ok" ++ quote ++ lit "}".

Definition json_table (s : jsstring) : option value :=
  if jsstring_eqb s (lit "null") then Some Null
  else if jsstring_eqb s summary_ok then Some (Obj [(lit "summary", Str (lit "ok"))])
  else if jsstring_eqb s (lit "42") then Some (Num (of_Z 42))
  else None.

Definition nullish_name (v : value) : jsstring :=
  match v with
  | Null => lit "null"
  | _ => lit "undefined"
  end.

Definition v8_message (v : value) (k : jsstring) : jsstring :=
  lit "Cannot read properties of " ++ nullish_name v ++ lit " (reading '" ++ k ++ lit "')".

Definition runtime : Runtime :=
  {| Number_toString := integer_toString;
     JSON_parse := json_table;
     TypeError_message := v8_message;
     ToPrimitive_message := lit "Cannot convert object to primitive value" |}.

End Sample.

(* ===================================================================== *)
(** ** The vocabulary of the properties *)
(* ===================================================================== *)

Import Js Api Eff.

(** *** Requests *)

(** The body of a search and the query parameters of a list call. *)
Definition search_body (query topK threshold : value) : value :=
  Obj [(lit "query_text", query); (lit "top_k", topK); (lit "threshold", threshold)].

Definition page_params (skip limit : value) : value :=
  Obj [(lit "skip", skip); (lit "limit", limit)].

(** The list request of each page, as its fetch handler sends it. *)
Definition tasks_list : Request := taskApi.getTasks (Num (of_Z 0)) (Num (of_Z 100)).
Definition business_list_req : Request :=
  businessKnowledgeApi.list (Num (of_Z 0)) (Num (of_Z 100)).
Definition reasoning_list_req : Request :=
  reasoningKnowledgeApi.list (Num (of_Z 0)) (Num (of_Z 100)).

(** *** What a run did *)

(** What the catch clause of a handler puts after its prefix: the [detail]
    of the error response when there is a response and its [detail] is
    truthy, the error's own message otherwise. *)
Definition failure_detail (resp : option AxiosResponse) (msg : jsstring) : value :=
  match resp with
  | Some r =>
      if truthy (opt_member (response_data r) (lit "detail"))
      then opt_member (response_data r) (lit "detail")
      else Str msg
  | None => Str msg
  end.

(** The text of a failure: the prefix of the handler, then the text of
    [failure_detail]; [None] when that has no text, which is when it is a
    [detail] that is or holds an object with an own property [toString]. *)
Definition shown_failure {RT : Runtime} (prefix : jsstring)
    (resp : option AxiosResponse) (msg : jsstring) : option jsstring :=
  option_map (app prefix) (to_string (failure_detail resp msg)).


(** Every error detail the backend sends has a text. *)
Definition details_convert {RT : Runtime} (env : Env) : Prop :=
  forall n r resp msg,
    backend env n r = Failed (Some resp) msg ->
    to_string (opt_member (response_data resp) (lit "detail")) <> None.

(** A run ended normally, or with the [TypeError] of a string conversion. *)
Definition ended {RT : Runtime} (r : Settled unit) : Prop :=
  r = Fulfilled tt \/ r = Rejected (TypeError ToPrimitive_message).


(** *** Worlds for the closed examples *)

(** Forms that are filled in. *)
Definition filled_forms (f : FormRef) : Validation :=
  match f with
  | form =>
      Valid (Obj [(lit "question_text", Str (lit "如何登录"));
                  (lit "answer_text", Str (lit "扫码"))])
  | searchForm =>
      Valid (Obj [(lit "query_text", Str (lit "登录")); (lit "top_k", Num (of_Z 5));
                  (lit "threshold", Num (of_Z 0))])
  end.

(** A backend that answers nothing: every request times out. *)
Definition timed_out : Env :=
  {| backend := fun _ _ => Failed None (lit "timeout of 30000ms exceeded");
     forms := filled_forms |}.

(** A backend that refuses every request with the same error. *)
Definition refusing (resp : option AxiosResponse) (msg : jsstring) : Env :=
  {| backend := fun _ _ => Failed resp msg; forms := filled_forms |}.

(** A backend that resolves every request with the same body. *)
Definition accepting (body : value) : Env :=
  {| backend := fun _ _ => Resolved {| response_data := body |}; forms := filled_forms |}.

(** The answer 404 of the backend to a task it does not have. *)
Definition not_found : option AxiosResponse :=
  Some {| response_data := Obj [(lit "detail", Str (lit "任务不存在"))] |}.

(** The answer 400 of a backend whose [detail] is an object with a key
    [toString]. *)
Definition no_text : option AxiosResponse :=
  Some {| response_data :=
            Obj [(lit "detail", Obj [(lit "toString", Num (of_Z 1))])] |}.

(** The task page showing one task, and with a description typed in. *)
Definition some_tasks : TasksPage.State :=
  {| TasksPage.tasks := Arr [Obj [(lit "id", Num (of_Z 7))]];
     TasksPage.loading := false; TasksPage.modalVisible := false;
     TasksPage.detailModalVisible := false; TasksPage.selectedTask := Null;
     TasksPage.taskInput := [] |}.

Definition typed_task : TasksPage.State :=
  {| TasksPage.tasks := Arr []; TasksPage.loading := false;
     TasksPage.modalVisible := true; TasksPage.detailModalVisible := false;
     TasksPage.selectedTask := Null; TasksPage.taskInput := lit "  打开云文档 " |}.

(** *** The API, call by call *)

(** The resource a function belongs to. *)
Definition resource (c : Call) : jsstring :=
  match c with
  | task_runTask _ _ | task_getTask _ | task_getTasks _ _ | task_deleteTask _ =>
      lit "/tasks"
  | business_create _ | business_get _ | business_list _ _ | business_update _ _
  | business_delete _ | business_searchByQuestion _ _ _ | business_searchByAnswer _ _ _
  | business_count =>
      lit "/business-knowledge"
  | reasoning_create _ | reasoning_get _ | reasoning_list _ _ | reasoning_update _ _
  | reasoning_delete _ | reasoning_searchByTask _ _ _ | reasoning_searchByStep _ _ _
  | reasoning_count =>
      lit "/reasoning-knowledge"
  end.

Definition is_list (c : Call) : bool :=
  match c with
  | task_getTasks _ _ | business_list _ _ | reasoning_list _ _ => true
  | _ => false
  end.

Definition is_search (c : Call) : bool :=
  match c with
  | business_searchByQuestion _ _ _ | business_searchByAnswer _ _ _
  | reasoning_searchByTask _ _ _ | reasoning_searchByStep _ _ _ => true
  | _ => false
  end.

(** *** More worlds for the closed examples *)

(** Forms whose required field is empty. *)
Definition nothing_typed : Env :=
  {| backend := fun _ _ => Resolved {| response_data := Null |};
     forms := fun f =>
       match f with
       | form => Invalid [Obj [(lit "name", Arr [Str (lit "question_text")])]]
       | searchForm => Invalid [Obj [(lit "name", Arr [Str (lit "query_text")])]]
       end |}.

(** The knowledge pages with the edit dialog open, for a new entry. *)
Definition open_business_dialog : BusinessKnowledgePage.State :=
  {| BusinessKnowledgePage.knowledgeList := Arr [];
     BusinessKnowledgePage.loading := false;
     BusinessKnowledgePage.modalVisible := true;
     BusinessKnowledgePage.editingItem := None;
     BusinessKnowledgePage.searchResults := Arr [];
     BusinessKnowledgePage.searchLoading := false |}.

Definition open_reasoning_dialog : ReasoningKnowledgePage.State :=
  {| ReasoningKnowledgePage.knowledgeList := Arr [];
     ReasoningKnowledgePage.loading := false;
     ReasoningKnowledgePage.modalVisible := true;
     ReasoningKnowledgePage.editingItem := None;
     ReasoningKnowledgePage.searchResults := Arr [];
     ReasoningKnowledgePage.searchLoading := false |}.

(** A row of each knowledge table, and the two editors at rest. *)
Definition a_record : BusinessKnowledgePage.BusinessKnowledge :=
  {| BusinessKnowledgePage.id := of_Z 7;
     BusinessKnowledgePage.question_text := lit "如何登录";
     BusinessKnowledgePage.answer_text := lit "扫码";
     BusinessKnowledgePage.created_at := None;
     BusinessKnowledgePage.updated_at := None;
     BusinessKnowledgePage.similarity := None |}.

Definition a_reasoning_record : ReasoningKnowledgePage.ReasoningKnowledge :=
  {| ReasoningKnowledgePage.id := of_Z 7;
     ReasoningKnowledgePage.task_text := lit "打开云文档";
     ReasoningKnowledgePage.step_text := lit "点击云文档";
     ReasoningKnowledgePage.created_at := None;
     ReasoningKnowledgePage.updated_at := None;
     ReasoningKnowledgePage.similarity := None |}.

Definition closed_business_editor : BusinessKnowledgeModal.Editor :=
  {| BusinessKnowledgeModal.state := BusinessKnowledgePage.initial;
     BusinessKnowledgeModal.fields := [] |}.

Definition closed_reasoning_editor : ReasoningKnowledgeModal.Editor :=
  {| ReasoningKnowledgeModal.state := ReasoningKnowledgePage.initial;
     ReasoningKnowledgeModal.fields := [] |}.

(** *** Running a handler *)

#[local] Arguments lit : simpl never.
#[local] Arguments of_Z : simpl never.
#[local] Arguments to_string : simpl never.
#[local] Arguments trim : simpl never.
#[local] Arguments or_else : simpl never.
#[local] Arguments exn_detail : simpl never.
#[local] Arguments exn_message : simpl never.

Ltac unfold_monad :=
  cbv [run bind ret throw try_catch try_finally gets modify emit await get_member
       not_awaited
       validateFields message_success message_error message_warning setTimeout
       requests page trace string_of];
  cbn [app List.length flat_map].

Ltac unfold_tasks :=
  cbv [TasksPage.fetchTasks TasksPage.handleRunTask TasksPage.handleViewDetail
       TasksPage.handleDelete TasksPage.handleDelete_onOk TasksPage.call
       TasksPage.setTasks TasksPage.setLoading TasksPage.setModalVisible
       TasksPage.setDetailModalVisible TasksPage.setSelectedTask TasksPage.setTaskInput
       TasksPage.failure_text].

Ltac unfold_business :=
  cbv [BusinessKnowledgePage.fetchKnowledge BusinessKnowledgePage.handleSubmit
       BusinessKnowledgePage.handleDelete BusinessKnowledgePage.handleSearch
       BusinessKnowledgePage.setKnowledgeList BusinessKnowledgePage.setLoading
       BusinessKnowledgePage.setModalVisible BusinessKnowledgePage.setSearchResults
       BusinessKnowledgePage.setSearchLoading BusinessKnowledgePage.failure_text].

Ltac unfold_reasoning :=
  cbv [ReasoningKnowledgePage.fetchKnowledge ReasoningKnowledgePage.handleSubmit
       ReasoningKnowledgePage.handleDelete ReasoningKnowledgePage.handleSearch
       ReasoningKnowledgePage.setKnowledgeList ReasoningKnowledgePage.setLoading
       ReasoningKnowledgePage.setModalVisible ReasoningKnowledgePage.setSearchResults
       ReasoningKnowledgePage.setSearchLoading ReasoningKnowledgePage.failure_text].

Ltac run_handler := unfold_tasks; unfold_business; unfold_reasoning; unfold_monad.

(** The handlers of the view and of the edit dialog. *)
Ltac unfold_views :=
  cbv [TasksView.add_onClick TasksView.input_onChange TasksView.add_onCancel
       TasksView.detail_onCancel TasksView.on_mount
       BusinessKnowledgeModal.handleCreate BusinessKnowledgeModal.handleEdit
       BusinessKnowledgeModal.modal_onCancel BusinessKnowledgeModal.setEditingItem
       BusinessKnowledgeModal.setModalVisible BusinessKnowledgeModal.form_resetFields
       BusinessKnowledgeModal.form_setFieldsValue
       ReasoningKnowledgeModal.handleCreate ReasoningKnowledgeModal.handleEdit
       ReasoningKnowledgeModal.modal_onCancel ReasoningKnowledgeModal.setEditingItem
       ReasoningKnowledgeModal.setModalVisible ReasoningKnowledgeModal.form_resetFields
       ReasoningKnowledgeModal.form_setFieldsValue].

Ltac run_any := unfold_views; run_handler.

(* ===================================================================== *)
(** ** Properties *)
(* ===================================================================== *)

Lemma jsstring_eqb_eq (a b : jsstring) : jsstring_eqb a b = true <-> a = b.
Proof.
  unfold jsstring_eqb. destruct (list_eq_dec N.eq_dec a b); split; congruence.
Qed.

Lemma default_supplied (d x : value) : x <> Undefined -> default d x = x.
Proof. destruct x; intros H; try reflexivity. contradiction H. reflexivity. Qed.

(** What a catch clause concatenates, for the rejection of a request. *)
Lemma catch_detail (resp : option AxiosResponse) (msg : jsstring) :
  or_else (exn_detail (AxiosError resp msg)) (exn_message (AxiosError resp msg))
  = failure_detail resp msg.
Proof. destruct resp as [r|]; reflexivity. Qed.

(** Strings, and so the messages of errors, always have a text. *)
Lemma failure_detail_converts {RT : Runtime} (resp : option AxiosResponse)
    (msg : jsstring) :
  (forall r, resp = Some r ->
             to_string (opt_member (response_data r) (lit "detail")) <> None) ->
  to_string (failure_detail resp msg) <> None.
Proof.
  intros H. unfold failure_detail. destruct resp as [r|]; [| discriminate].
  destruct (truthy _); [apply (H r eq_refl) | discriminate].
Qed.

(** What it concatenates for a [TypeError]: the error's own message. *)
Lemma catch_type_error (m : jsstring) :
  or_else (exn_detail (TypeError m)) (exn_message (TypeError m)) = Str m.
Proof. reflexivity. Qed.

Lemma to_string_Str {RT : Runtime} (s : jsstring) : to_string (Str s) = Some s.
Proof. reflexivity. Qed.

(** A case analysis on everything the world can answer, [known] rewriting
    with what is known of it. *)
Ltac ask_world_given known :=
  repeat (cbn; known; rewrite ?catch_detail, ?catch_type_error, ?to_string_Str;
    match goal with
    | |- context [forms ?e ?f] => destruct (forms e f) eqn:?
    | |- context [trim ?s] => destruct (trim s) eqn:?
    | |- context [match member ?v ?k with _ => _ end] => destruct (member v k) eqn:?
    | |- context [if truthy ?v then _ else _] => destruct (truthy v) eqn:?
    | |- context [if jsstring_eqb ?a ?b then _ else _] =>
        destruct (jsstring_eqb a b) eqn:?
    | |- context [match backend ?e ?n ?r with _ => _ end] =>
        destruct (backend e n r) as [[?]|? ?] eqn:?
    | |- context [match to_string ?v with _ => _ end] => destruct (to_string v) eqn:?
    | |- context [match ?o with Some _ => _ | None => _ end] => destruct o eqn:?
    end).

Ltac ask_world := ask_world_given idtac.

(** A value read with [v.k] is the value read with [v?.k]. *)
Lemma member_opt_member (v : value) (k : jsstring) (x : value) :
  member v k = Some x -> opt_member v k = x.
Proof. unfold opt_member. intros ->. reflexivity. Qed.


(** *** The shared HTTP client *)

(** C6: whatever function of [taskApi], [businessKnowledgeApi] or
    [reasoningKnowledgeApi] is called, with whatever arguments, the request
    it makes is made on the one instance [api], whose base path is ['/api']
    and whose timeout is 30000 ms. *)
Theorem every_request_goes_through_api {RT : Runtime} (c : Call) :
  client (request_of c) = api
  /\ baseURL api = lit "/api"
  /\ timeout api = of_Z 30000.
Proof.
  repeat split. destruct c; reflexivity.
Qed.

(** *** Parameters pass through *)

(** C7: a search called with the arguments (query, topK, threshold) posts
    exactly [{query_text: query, top_k: topK, threshold}] to the endpoint of
    its axis (question or answer, task or step), and a list call sends skip
    and limit unchanged as query parameters. *)
Theorem search_and_list_pass_parameters_through
    (query topK threshold skip limit : value) :
  topK <> Undefined -> threshold <> Undefined ->
  skip <> Undefined -> limit <> Undefined ->
  businessKnowledgeApi.searchByQuestion query topK threshold
    = axios_post api (lit "/business-knowledge/search/question")
        (search_body query topK threshold)
  /\ businessKnowledgeApi.searchByAnswer query topK threshold
    = axios_post api (lit "/business-knowledge/search/answer")
        (search_body query topK threshold)
  /\ reasoningKnowledgeApi.searchByTask query topK threshold
    = axios_post api (lit "/reasoning-knowledge/search/task")
        (search_body query topK threshold)
  /\ reasoningKnowledgeApi.searchByStep query topK threshold
    = axios_post api (lit "/reasoning-knowledge/search/step")
        (search_body query topK threshold)
  /\ taskApi.getTasks skip limit
    = axios_get api (lit "/tasks") (page_params skip limit)
  /\ businessKnowledgeApi.list skip limit
    = axios_get api (lit "/business-knowledge") (page_params skip limit)
  /\ reasoningKnowledgeApi.list skip limit
    = axios_get api (lit "/reasoning-knowledge") (page_params skip limit).
Proof.
  intros Hk Ht Hs Hl.
  unfold businessKnowledgeApi.searchByQuestion, businessKnowledgeApi.searchByAnswer,
    reasoningKnowledgeApi.searchByTask, reasoningKnowledgeApi.searchByStep,
    taskApi.getTasks, businessKnowledgeApi.list, reasoningKnowledgeApi.list,
    search_body, page_params.
  rewrite !(default_supplied _ topK Hk), !(default_supplied _ threshold Ht),
    !(default_supplied _ skip Hs), !(default_supplied _ limit Hl).
  repeat split.
Qed.

Lemma search_and_list_pass_parameters_through_witness :
  let q := Str (lit "login") in
  let k := Num (of_Z 7) in
  let t := Num (decimal 5 1) in
  businessKnowledgeApi.searchByQuestion q k t
    = axios_post api (lit "/business-knowledge/search/question") (search_body q k t)
  /\ taskApi.getTasks (Num (of_Z 0)) (Num (of_Z 100))
    = axios_get api (lit "/tasks") (page_params (Num (of_Z 0)) (Num (of_Z 100))).
Proof.
  intros q k t.
  destruct (search_and_list_pass_parameters_through q k t (Num (of_Z 0)) (Num (of_Z 100)))
    as (H1 & _ & _ & _ & H5 & _); try discriminate.
  split; [exact H1 | exact H5].
Defined.

(** An argument left out takes the default of its parameter: five results
    and threshold zero for a search, the first hundred records for a list. *)
Lemma omitted_arguments_take_defaults (query : value) :
  businessKnowledgeApi.searchByQuestion query Undefined Undefined
    = axios_post api (lit "/business-knowledge/search/question")
        (search_body query (Num (of_Z 5)) (Num (of_Z 0)))
  /\ reasoningKnowledgeApi.searchByStep query Undefined Undefined
    = axios_post api (lit "/reasoning-knowledge/search/step")
        (search_body query (Num (of_Z 5)) (Num (of_Z 0)))
  /\ taskApi.getTasks Undefined Undefined = tasks_list.
Proof. repeat split. Qed.

(** *** The similarity column *)

(** [toFixed] rounds to the nearest: for a number [m * 2^e] with a
    fractional part, the [n] it prints satisfies
    [n - 1/2 <= m * 2^e * 10^f < n + 1/2]; without one, [n] is exact. *)
Lemma nearest_scaled_nearest (m : positive) (e : Z) (f : nat) :
  e < 0 ->
  let n := nearest_scaled m e f in
  let D := 2 ^ (- e) in
  2 * n * D - D <= 2 * (Zpos m * 10 ^ Z.of_nat f) < 2 * n * D + D.
Proof.
  intros He n D. subst n D. unfold nearest_scaled.
  destruct (Z.leb_spec 0 e) as [H0|_]; [lia |].
  set (s := Zpos m * 10 ^ Z.of_nat f).
  replace (- e + 1) with (Z.succ (- e)) by lia.
  rewrite Z.pow_succ_r by lia.
  assert (HD : 0 < 2 ^ (- e)) by (apply Z.pow_pos_nonneg; lia).
  set (D := 2 ^ (- e)) in *.
  pose proof (Z.div_mod (2 * s + D) (2 * D) ltac:(lia)) as Hdm.
  pose proof (Z.mod_pos_bound (2 * s + D) (2 * D) ltac:(lia)) as Hbd.
  nia.
Qed.

Lemma nearest_scaled_exact (m : positive) (e : Z) (f : nat) :
  0 <= e -> nearest_scaled m e f = Zpos m * 2 ^ e * 10 ^ Z.of_nat f.
Proof.
  intros He. unfold nearest_scaled.
  destruct (Z.leb_spec 0 e) as [_|H0]; [ring | lia].
Qed.

(** The literal [0.873] is the double nearest to 873/1000: [decimal 873 3]
    is [m * 2^-53] with [|1000 m - 873 * 2^53|] at most half of 1000. *)
Lemma decimal_0873_nearest :
  exists m : positive,
    decimal 873 3 = S754_finite false m (-53)
    /\ 2 * Z.abs (1000 * Zpos m - 873 * 2 ^ 53) <= 1000
    /\ valid_binary prec emax (decimal 873 3) = true.
Proof.
  exists 7863284949388886%positive. vm_compute. repeat split; discriminate.
Qed.

(** C3: a similarity that is defined renders as [(similarity * 100)
    .toFixed(2)] followed by ['%'], so 0.873 renders as ['87.30%']; an
    undefined one renders as ['-'].  On both knowledge pages. *)
Theorem similarity_renders_as_percentage {RT : Runtime} :
  (forall x : number,
      BusinessKnowledgePage.render_similarity (Some x)
        = toFixed (mul x (of_Z 100)) 2 ++ lit "%"
      /\ ReasoningKnowledgePage.render_similarity (Some x)
        = toFixed (mul x (of_Z 100)) 2 ++ lit "%")
  /\ BusinessKnowledgePage.render_similarity (Some (decimal 873 3)) = lit "87.30%"
  /\ ReasoningKnowledgePage.render_similarity (Some (decimal 873 3)) = lit "87.30%"
  /\ BusinessKnowledgePage.render_similarity None = lit "-"
  /\ ReasoningKnowledgePage.render_similarity None = lit "-".
Proof.
  split; [intros x; split; reflexivity |].
  repeat split; vm_compute; reflexivity.
Qed.

(** *** The success and executability flags *)

Lemma tags_distinct :
  TasksPage.unknown_tag <> TasksPage.yes_tag
  /\ TasksPage.unknown_tag <> TasksPage.no_tag
  /\ TasksPage.yes_tag <> TasksPage.no_tag.
Proof. repeat split; vm_compute; discriminate. Qed.

Lemma labels_distinct :
  lit "未知" <> lit "是" /\ lit "未知" <> lit "否" /\ lit "是" <> lit "否".
Proof. repeat split; vm_compute; discriminate. Qed.

Lemma tristate_tag (render : TasksPage.field bool -> TasksPage.Tag) :
  (forall v, render v = match v with
                        | TasksPage.null | TasksPage.absent => TasksPage.unknown_tag
                        | TasksPage.present b =>
                            if b then TasksPage.yes_tag else TasksPage.no_tag
                        end) ->
  forall v,
    (render v = TasksPage.unknown_tag <-> v = TasksPage.null \/ v = TasksPage.absent)
    /\ (render v = TasksPage.yes_tag <-> v = TasksPage.present true)
    /\ (render v = TasksPage.no_tag <-> v = TasksPage.present false).
Proof.
  intros Hr v. rewrite Hr.
  destruct tags_distinct as (Huy & Hun & Hyn).
  destruct v as [| |[|]]; repeat split; intros H;
    try reflexivity; try congruence; try (left; reflexivity); try (right; reflexivity);
    try (destruct H; discriminate); try (symmetry in H; contradiction).
Qed.

Lemma tristate_label (render : TasksPage.field bool -> jsstring) :
  (forall v, render v = match v with
                        | TasksPage.null | TasksPage.absent => lit "未知"
                        | TasksPage.present b => if b then lit "是" else lit "否"
                        end) ->
  forall v,
    (render v = lit "未知" <-> v = TasksPage.null \/ v = TasksPage.absent)
    /\ (render v = lit "是" <-> v = TasksPage.present true)
    /\ (render v = lit "否" <-> v = TasksPage.present false).
Proof.
  intros Hr v. rewrite Hr.
  destruct labels_distinct as (Huy & Hun & Hyn).
  destruct v as [| |[|]]; repeat split; intros H;
    try reflexivity; try congruence; try (left; reflexivity); try (right; reflexivity);
    try (destruct H; discriminate); try (symmetry in H; contradiction).
Qed.

(** C8: the "all success" and "can execute" columns and the two items of
    the detail view show the unknown state exactly when the field is null
    or undefined, the affirmative one exactly when it is true and the
    negative one exactly when it is false; and what they are given is what
    the backend returned: a fetch stores the response body as it is. *)
Theorem flags_render_three_states {RT : Runtime} (v : TasksPage.field bool) :
  ((TasksPage.render_all_success v = TasksPage.unknown_tag
      <-> v = TasksPage.null \/ v = TasksPage.absent)
   /\ (TasksPage.render_all_success v = TasksPage.yes_tag <-> v = TasksPage.present true)
   /\ (TasksPage.render_all_success v = TasksPage.no_tag <-> v = TasksPage.present false))
  /\ ((TasksPage.render_can_execute v = TasksPage.unknown_tag
         <-> v = TasksPage.null \/ v = TasksPage.absent)
      /\ (TasksPage.render_can_execute v = TasksPage.yes_tag <-> v = TasksPage.present true)
      /\ (TasksPage.render_can_execute v = TasksPage.no_tag <-> v = TasksPage.present false))
  /\ ((TasksPage.detail_all_success v = lit "未知"
         <-> v = TasksPage.null \/ v = TasksPage.absent)
      /\ (TasksPage.detail_all_success v = lit "是" <-> v = TasksPage.present true)
      /\ (TasksPage.detail_all_success v = lit "否" <-> v = TasksPage.present false))
  /\ ((TasksPage.detail_can_execute v = lit "未知"
         <-> v = TasksPage.null \/ v = TasksPage.absent)
      /\ (TasksPage.detail_can_execute v = lit "是" <-> v = TasksPage.present true)
      /\ (TasksPage.detail_can_execute v = lit "否" <-> v = TasksPage.present false))
  /\ (forall env s d taskId,
        (backend env 0%nat tasks_list = Resolved {| response_data := d |} ->
         TasksPage.tasks (page (snd (run TasksPage.fetchTasks env s))) = d)
        /\ (backend env 0%nat (taskApi.getTask taskId) = Resolved {| response_data := d |} ->
            TasksPage.selectedTask
              (page (snd (run (TasksPage.handleViewDetail taskId) env s))) = d)).
Proof.
  split; [apply tristate_tag; intros [| |[|]]; reflexivity |].
  split; [apply tristate_tag; intros [| |[|]]; reflexivity |].
  split; [apply tristate_label; intros [| |[|]]; reflexivity |].
  split; [apply tristate_label; intros [| |[|]]; reflexivity |].
  intros env s d taskId. unfold tasks_list.
  split; intros H; run_handler; rewrite H; reflexivity.
Qed.

(** *** A failed list fetch *)

(** C9: when the list request fails, the page is left as it was except
    that the loading flag is off: the list shown before is still there,
    and all the handler did besides is show the error message (when the
    failure has a text to show).  On the three pages. *)
Theorem failed_list_fetch_keeps_list {RT : Runtime}
    (env : Env) (st : TasksPage.State) (sb : BusinessKnowledgePage.State)
    (sr : ReasoningKnowledgePage.State)
    (r1 r2 r3 : option AxiosResponse) (m1 m2 m3 : jsstring) :
  backend env 0%nat tasks_list = Failed r1 m1 ->
  backend env 0%nat business_list_req = Failed r2 m2 ->
  backend env 0%nat reasoning_list_req = Failed r3 m3 ->
  (let w := snd (run TasksPage.fetchTasks env st) in
   TasksPage.tasks (page w) = TasksPage.tasks st
   /\ page w = {| TasksPage.tasks := TasksPage.tasks st;
                  TasksPage.loading := false;
                  TasksPage.modalVisible := TasksPage.modalVisible st;
                  TasksPage.detailModalVisible := TasksPage.detailModalVisible st;
                  TasksPage.selectedTask := TasksPage.selectedTask st;
                  TasksPage.taskInput := TasksPage.taskInput st |}
   /\ trace w = Sent tasks_list
                  :: match shown_failure (lit "获取任务列表失败: ") r1 m1 with
                     | Some text => [Message error text]
                     | None => []
                     end)
  /\ (let w := snd (run BusinessKnowledgePage.fetchKnowledge env sb) in
      BusinessKnowledgePage.knowledgeList (page w) = BusinessKnowledgePage.knowledgeList sb
      /\ page w = {| BusinessKnowledgePage.knowledgeList :=
                       BusinessKnowledgePage.knowledgeList sb;
                     BusinessKnowledgePage.loading := false;
                     BusinessKnowledgePage.modalVisible :=
                       BusinessKnowledgePage.modalVisible sb;
                     BusinessKnowledgePage.editingItem :=
                       BusinessKnowledgePage.editingItem sb;
                     BusinessKnowledgePage.searchResults :=
                       BusinessKnowledgePage.searchResults sb;
                     BusinessKnowledgePage.searchLoading :=
                       BusinessKnowledgePage.searchLoading sb |}
      /\ trace w = Sent business_list_req
                     :: match shown_failure (lit "获取知识列表失败: ") r2 m2 with
                        | Some text => [Message error text]
                        | None => []
                        end)
  /\ (let w := snd (run ReasoningKnowledgePage.fetchKnowledge env sr) in
      ReasoningKnowledgePage.knowledgeList (page w) = ReasoningKnowledgePage.knowledgeList sr
      /\ page w = {| ReasoningKnowledgePage.knowledgeList :=
                       ReasoningKnowledgePage.knowledgeList sr;
                     ReasoningKnowledgePage.loading := false;
                     ReasoningKnowledgePage.modalVisible :=
                       ReasoningKnowledgePage.modalVisible sr;
                     ReasoningKnowledgePage.editingItem :=
                       ReasoningKnowledgePage.editingItem sr;
                     ReasoningKnowledgePage.searchResults :=
                       ReasoningKnowledgePage.searchResults sr;
                     ReasoningKnowledgePage.searchLoading :=
                       ReasoningKnowledgePage.searchLoading sr |}
      /\ trace w = Sent reasoning_list_req
                     :: match shown_failure (lit "获取知识列表失败: ") r3 m3 with
                        | Some text => [Message error text]
                        | None => []
                        end).
Proof.
  unfold tasks_list, business_list_req, reasoning_list_req.
  intros H1 H2 H3.
  split; [| split].
  - run_handler. rewrite H1. cbn. rewrite catch_detail. unfold shown_failure.
    destruct (to_string (failure_detail r1 m1)); cbn; repeat split.
  - run_handler. rewrite H2. cbn. rewrite catch_detail. unfold shown_failure.
    destruct (to_string (failure_detail r2 m2)); cbn; repeat split.
  - run_handler. rewrite H3. cbn. rewrite catch_detail. unfold shown_failure.
    destruct (to_string (failure_detail r3 m3)); cbn; repeat split.
Qed.

Lemma failed_list_fetch_keeps_list_witness :
  TasksPage.tasks
    (page (snd (run (TasksPage.fetchTasks (RT := Sample.runtime)) timed_out some_tasks)))
  = Arr [Obj [(lit "id", Num (of_Z 7))]].
Proof.
  exact (proj1 (proj1 (failed_list_fetch_keeps_list (RT := Sample.runtime)
           timed_out some_tasks BusinessKnowledgePage.initial
           ReasoningKnowledgePage.initial None None None _ _ _
           eq_refl eq_refl eq_refl))).
Defined.

(** *** Submitting a task *)

(** The trimmed form of a string is empty exactly when the string is made
    of white space only. *)
Lemma trimStart_head (s : jsstring) :
  trimStart s = [] \/ exists c r, trimStart s = c :: r /\ is_space c = false.
Proof.
  induction s as [|c r IH]; [left; reflexivity |].
  cbn. destruct (is_space c) eqn:Hc; [exact IH |].
  right. exists c, r. split; [reflexivity | exact Hc].
Qed.

Lemma trimStart_nil_iff (s : jsstring) :
  trimStart s = [] <-> forallb is_space s = true.
Proof.
  induction s as [|c r IH]; [split; reflexivity |].
  cbn. destruct (is_space c); cbn; [exact IH |].
  split; discriminate.
Qed.

Lemma trim_nil_iff (s : jsstring) :
  trim s = [] <-> forallb is_space s = true.
Proof.
  unfold trim, trimEnd. rewrite <- trimStart_nil_iff. split.
  - intros H.
    assert (H' : trimStart (rev (trimStart s)) = []).
    { rewrite <- (rev_involutive (trimStart _)), H. reflexivity. }
    apply trimStart_nil_iff in H'. rewrite forallb_forall in H'.
    destruct (trimStart_head s) as [Hn | (c & r & Hs & Hc)]; [exact Hn |].
    rewrite (H' c) in Hc; [discriminate |].
    apply in_rev. rewrite rev_involutive, Hs. left. reflexivity.
  - intros H. rewrite H. reflexivity.
Qed.

(** C4: when the task input is empty once trimmed, the submit handler
    shows the warning, sends nothing and leaves the page state as it was;
    otherwise it sends exactly one request, the task run carrying the
    trimmed text. *)
Theorem empty_task_refused_else_one_run_request {RT : Runtime}
    (env : Env) (s : TasksPage.State) :
  let w := snd (run TasksPage.handleRunTask env s) in
  match trim (TasksPage.taskInput s) with
  | [] =>
      trace w = [Message warning (lit "请输入任务描述")]
      /\ requests w = []
      /\ page w = s
  | (_ :: _) as t =>
      requests w = [taskApi.runTask (Str t) Undefined]
  end.
Proof.
  run_handler.
  destruct (trim (TasksPage.taskInput s)) as [|c t] eqn:E; cbn.
  - repeat split.
  - ask_world; reflexivity.
Qed.

(** *** Deleting a record *)

(** The delete handler of the task page opens the confirmation dialog and
    sends nothing; the deletion is the dialog's [onOk]. *)
Lemma task_delete_asks_first {RT : Runtime} (env : Env) (s : TasksPage.State)
    (taskId : number) :
  trace (snd (run (TasksPage.handleDelete taskId) env s))
  = [ModalConfirm (lit "确认删除") (lit "确定要删除这个任务吗？") (delete_task_onOk taskId)].
Proof. reflexivity. Qed.

(** C5, as the code has it: a confirmed deletion sends exactly one delete
    request; when that request succeeds exactly one list request follows
    it, and when it fails nothing follows.  On the three pages. *)
Theorem confirmed_deletion_deletes_then_refreshes {RT : Runtime}
    (env : Env) (st : TasksPage.State) (sb : BusinessKnowledgePage.State)
    (sr : ReasoningKnowledgePage.State) (id : number) :
  (let w := snd (run (TasksPage.call (delete_task_onOk id)) env st) in
   match backend env 0%nat (taskApi.deleteTask id) with
   | Resolved _ => requests w = [taskApi.deleteTask id; tasks_list]
   | Failed _ _ => requests w = [taskApi.deleteTask id]
   end)
  /\ (let w := snd (run (BusinessKnowledgePage.handleDelete id) env sb) in
      match backend env 0%nat (businessKnowledgeApi.delete id) with
      | Resolved _ => requests w = [businessKnowledgeApi.delete id; business_list_req]
      | Failed _ _ => requests w = [businessKnowledgeApi.delete id]
      end)
  /\ (let w := snd (run (ReasoningKnowledgePage.handleDelete id) env sr) in
      match backend env 0%nat (reasoningKnowledgeApi.delete id) with
      | Resolved _ => requests w = [reasoningKnowledgeApi.delete id; reasoning_list_req]
      | Failed _ _ => requests w = [reasoningKnowledgeApi.delete id]
      end).
Proof.
  unfold tasks_list, business_list_req, reasoning_list_req.
  split; [| split]; run_handler; ask_world; reflexivity.
Qed.

(** C5, as the specification words it (one delete request and then one
    list request for every confirmed deletion), fails when the backend
    refuses the deletion: the record's id is 7, every request times out,
    and the only request sent is the delete. *)
Lemma refused_deletion_is_not_refreshed :
  let w := snd (run (BusinessKnowledgePage.handleDelete (RT := Sample.runtime)
                       (of_Z 7))
                  timed_out BusinessKnowledgePage.initial) in
  requests w = [businessKnowledgeApi.delete (RT := Sample.runtime) (of_Z 7)]
  /\ requests w <> [businessKnowledgeApi.delete (RT := Sample.runtime) (of_Z 7);
                    business_list_req].
Proof.
  split; [vm_compute; reflexivity | intros H; vm_compute in H; discriminate H].
Qed.

(** *** The final-result column *)

(** C10, as the code has it.  A non-empty text that parses to a value
    other than null shows that value's [summary] when it is truthy and
    otherwise the first 50 code units of the text followed by ['...'],
    whatever the length; a text that does not parse, or parses to null,
    is shown as it is up to 50 code units and cut to 50 plus ['...'] beyond;
    an empty or absent text shows ['-']. *)
Theorem final_result_rendering {RT : Runtime} (t : jsstring) :
  t <> [] ->
  (forall parsed,
      JSON_parse t = Some parsed -> parsed <> Null -> parsed <> Undefined ->
      TasksPage.render_final_result (TasksPage.present t)
      = if truthy (opt_member parsed (lit "summary"))
        then opt_member parsed (lit "summary")
        else Str (substring0 t 50 ++ lit "..."))
  /\ (JSON_parse t = None \/ JSON_parse t = Some Null ->
      TasksPage.render_final_result (TasksPage.present t)
      = Str (if length t <=? 50 then t else substring0 t 50 ++ lit "..."))
  /\ TasksPage.render_final_result (TasksPage.present []) = Str (lit "-")
  /\ TasksPage.render_final_result TasksPage.absent = Str (lit "-")
  /\ TasksPage.render_final_result TasksPage.null = Str (lit "-").
Proof.
  intros Ht. destruct t as [|c t]; [contradiction Ht; reflexivity |].
  split; [| split; [| repeat split]].
  - intros parsed Hp Hn Hu. unfold TasksPage.render_final_result. rewrite Hp.
    unfold opt_member, or_else.
    destruct parsed; try reflexivity; congruence.
  - assert (Hlen : forall s : jsstring, (50 <? length s) = negb (length s <=? 50)).
    { intros s. destruct (Z.ltb_spec 50 (length s)), (Z.leb_spec (length s) 50);
        try reflexivity; lia. }
    intros [Hp | Hp]; unfold TasksPage.render_final_result; rewrite Hp; cbn [member];
      rewrite Hlen; destruct (length (c :: t) <=? 50); reflexivity.
Qed.

Lemma final_result_rendering_witness :
  TasksPage.render_final_result (RT := Sample.runtime) (TasksPage.present Sample.summary_ok)
  = Str (lit "ok")
  /\ TasksPage.render_final_result (RT := Sample.runtime) (TasksPage.present (lit "42"))
     = Str (lit "42...")
  /\ TasksPage.render_final_result (RT := Sample.runtime) (TasksPage.present (lit "done"))
     = Str (lit "done").
Proof.
  split; [| split].
  - exact (proj1 (final_result_rendering (RT := Sample.runtime) Sample.summary_ok
                    ltac:(discriminate))
             (Obj [(lit "summary", Str (lit "ok"))]) eq_refl
             ltac:(discriminate) ltac:(discriminate)).
  - exact (proj1 (final_result_rendering (RT := Sample.runtime) (lit "42")
                    ltac:(discriminate))
             (Num (of_Z 42)) eq_refl ltac:(discriminate) ltac:(discriminate)).
  - exact (proj1 (proj2 (final_result_rendering (RT := Sample.runtime) (lit "done")
                           ltac:(discriminate)))
             (or_introl eq_refl)).
Defined.

(** C10, as the specification words it (every text that parses shows its
    summary or else its first 50 code units followed by ['...']), fails on
    the text [null]: it parses, to null, reading [summary] from null
    throws, and the [catch] branch shows the text unchanged. *)
Lemma null_text_is_shown_unchanged :
  JSON_parse (Runtime := Sample.runtime) (lit "null") = Some Null
  /\ TasksPage.render_final_result (RT := Sample.runtime) (TasksPage.present (lit "null"))
     = Str (lit "null")
  /\ TasksPage.render_final_result (RT := Sample.runtime) (TasksPage.present (lit "null"))
     <> Str (substring0 (lit "null") 50 ++ lit "...").
Proof.
  split; [vm_compute; reflexivity |].
  split; [vm_compute; reflexivity | intros H; vm_compute in H; discriminate H].
Qed.

(** *** A failed backend call *)




(** When the [detail] of the error response is an object with an own
    property [toString], building the message throws inside the [catch]
    clause: nothing is shown and the handler rejects. *)
Lemma detail_without_text_shows_nothing :
  let env := refusing no_text (lit "Request failed with status code 400") in
  run (TasksPage.handleViewDetail (RT := Sample.runtime) (of_Z 7)) env typed_task
  = (Rejected (TypeError (lit "Cannot convert object to primitive value")),
     {| page := typed_task;
        trace := [Sent (taskApi.getTask (RT := Sample.runtime) (of_Z 7))] |}).
Proof. vm_compute. reflexivity. Qed.

(** *** A successful mutation *)




(** The same happens when the body's [task_id] has no text: building the
    success message throws, the [catch] clause reports it, and no timer is
    set. *)
Lemma run_resolved_without_id_text_sets_no_timer :
  let body := Obj [(lit "task_id", Obj [(lit "toString", Num (of_Z 1))])] in
  let w := snd (run (TasksPage.handleRunTask (RT := Sample.runtime))
                  (accepting body) typed_task) in
  trace w = [Sent (taskApi.runTask (Str (lit "打开云文档")) Undefined);
             Message error (lit "启动任务失败: Cannot convert object to primitive value")]
  /\ page w = typed_task.
Proof. split; vm_compute; reflexivity. Qed.

(* ===================================================================== *)
(** ** Further properties of the handlers, the API and the renderers *)
(* ===================================================================== *)

(** *** What never happens *)

(** X1: a handler of the three pages rejects in one case only, when the
    text of a failure cannot be built: whatever the backend and the forms
    answer, every run is fulfilled or rejected with the [TypeError] of the
    string conversion in a [catch] clause; and when every error detail the
    backend sends has a text, no handler rejects. *)
Theorem handlers_reject_only_without_failure_text {RT : Runtime}
    (env : Env) (st : TasksPage.State) (sb : BusinessKnowledgePage.State)
    (sr : ReasoningKnowledgePage.State) (id : number) (type : jsstring) (cb : Callback) :
  let settled :=
    [fst (run TasksPage.fetchTasks env st);
     fst (run TasksPage.handleRunTask env st);
     fst (run (TasksPage.handleViewDetail id) env st);
     fst (run (TasksPage.handleDelete id) env st);
     fst (run (TasksPage.call cb) env st);
     fst (run BusinessKnowledgePage.fetchKnowledge env sb);
     fst (run BusinessKnowledgePage.handleSubmit env sb);
     fst (run (BusinessKnowledgePage.handleDelete id) env sb);
     fst (run (BusinessKnowledgePage.handleSearch type) env sb);
     fst (run ReasoningKnowledgePage.fetchKnowledge env sr);
     fst (run ReasoningKnowledgePage.handleSubmit env sr);
     fst (run (ReasoningKnowledgePage.handleDelete id) env sr);
     fst (run (ReasoningKnowledgePage.handleSearch type) env sr)] in
  Forall ended settled
  /\ (details_convert env -> Forall (fun r => r = Fulfilled tt) settled).
Proof.
  cbv zeta. split; [| intros Hconv];
    repeat apply Forall_cons; try apply Forall_nil; unfold ended;
    try destruct cb; run_any; ask_world;
    first
      [ reflexivity
      | left; reflexivity
      | right; reflexivity
      | exfalso;
        match goal with
        | Hb : backend _ _ _ = Failed ?resp ?m,
          Ht : to_string (failure_detail ?resp ?m) = None |- _ =>
            revert Ht; apply failure_detail_converts;
            intros r0 ->; exact (Hconv _ _ _ _ Hb)
        end ].
Qed.

Lemma handlers_reject_only_without_failure_text_witness :
  fst (run (TasksPage.handleViewDetail (RT := Sample.runtime) (of_Z 7))
         (refusing not_found (lit "Request failed with status code 404")) typed_task)
  = Fulfilled tt.
Proof.
  pose proof (proj2 (handlers_reject_only_without_failure_text (RT := Sample.runtime)
                (refusing not_found (lit "Request failed with status code 404"))
                typed_task BusinessKnowledgePage.initial ReasoningKnowledgePage.initial
                (of_Z 7) (lit "question") refresh_tasks)) as H.
  cbv zeta in H.
  assert (Hconv : details_convert (RT := Sample.runtime)
                    (refusing not_found (lit "Request failed with status code 404"))).
  { intros n r resp msg Hb. cbv [refusing backend not_found] in Hb.
    injection Hb as Hresp _. subst resp. vm_compute. discriminate. }
  exact (Forall_inv (Forall_inv_tail (Forall_inv_tail (H Hconv)))).
Defined.

(** A handler does reject when the error detail has no text: the backend
    answers a deletion with a [detail] that is an object with an own
    property [toString]. *)
Lemma handler_rejects_without_failure_text :
  fst (run (BusinessKnowledgePage.handleDelete (RT := Sample.runtime) (of_Z 7))
         (refusing no_text (lit "Request failed with status code 400"))
         BusinessKnowledgePage.initial)
  = Rejected (TypeError (lit "Cannot convert object to primitive value")).
Proof. vm_compute. reflexivity. Qed.

(** X2: however a list fetch or a search ends (success, refusal, invalid
    form, exception), its loading flag is off afterwards. *)
Theorem loading_flags_always_cleared {RT : Runtime}
    (env : Env) (st : TasksPage.State) (sb : BusinessKnowledgePage.State)
    (sr : ReasoningKnowledgePage.State) (type : jsstring) :
  TasksPage.loading (page (snd (run TasksPage.fetchTasks env st))) = false
  /\ BusinessKnowledgePage.loading
       (page (snd (run BusinessKnowledgePage.fetchKnowledge env sb))) = false
  /\ BusinessKnowledgePage.searchLoading
       (page (snd (run (BusinessKnowledgePage.handleSearch type) env sb))) = false
  /\ ReasoningKnowledgePage.loading
       (page (snd (run ReasoningKnowledgePage.fetchKnowledge env sr))) = false
  /\ ReasoningKnowledgePage.searchLoading
       (page (snd (run (ReasoningKnowledgePage.handleSearch type) env sr))) = false.
Proof.
  repeat match goal with |- _ /\ _ => split end; run_any; ask_world; reflexivity.
Qed.

(** X3: on the knowledge pages the list and the search results never touch
    each other: fetch, submit and delete leave the search results as they
    were, and a search leaves the list as it was, whatever the world
    answers. *)
Theorem list_and_search_results_are_independent {RT : Runtime}
    (env : Env) (sb : BusinessKnowledgePage.State) (sr : ReasoningKnowledgePage.State)
    (id : number) (type : jsstring) :
  (BusinessKnowledgePage.searchResults
     (page (snd (run BusinessKnowledgePage.fetchKnowledge env sb)))
   = BusinessKnowledgePage.searchResults sb
   /\ BusinessKnowledgePage.searchResults
        (page (snd (run BusinessKnowledgePage.handleSubmit env sb)))
      = BusinessKnowledgePage.searchResults sb
   /\ BusinessKnowledgePage.searchResults
        (page (snd (run (BusinessKnowledgePage.handleDelete id) env sb)))
      = BusinessKnowledgePage.searchResults sb
   /\ BusinessKnowledgePage.knowledgeList
        (page (snd (run (BusinessKnowledgePage.handleSearch type) env sb)))
      = BusinessKnowledgePage.knowledgeList sb)
  /\ (ReasoningKnowledgePage.searchResults
        (page (snd (run ReasoningKnowledgePage.fetchKnowledge env sr)))
      = ReasoningKnowledgePage.searchResults sr
      /\ ReasoningKnowledgePage.searchResults
           (page (snd (run ReasoningKnowledgePage.handleSubmit env sr)))
         = ReasoningKnowledgePage.searchResults sr
      /\ ReasoningKnowledgePage.searchResults
           (page (snd (run (ReasoningKnowledgePage.handleDelete id) env sr)))
         = ReasoningKnowledgePage.searchResults sr
      /\ ReasoningKnowledgePage.knowledgeList
           (page (snd (run (ReasoningKnowledgePage.handleSearch type) env sr)))
         = ReasoningKnowledgePage.knowledgeList sr).
Proof.
  repeat match goal with |- _ /\ _ => split end; run_any; ask_world; reflexivity.
Qed.

(** X4: when the backend refuses a task run, a detail fetch or a task
    deletion, the page state is exactly what it was: the dialog stays open
    and the typed description is kept. *)
Theorem failed_task_call_changes_nothing {RT : Runtime}
    (env : Env) (resp : option AxiosResponse) (msg : jsstring)
    (st : TasksPage.State) (id : number) :
  (forall r, backend env 0%nat r = Failed resp msg) ->
  page (snd (run TasksPage.handleRunTask env st)) = st
  /\ page (snd (run (TasksPage.handleViewDetail id) env st)) = st
  /\ page (snd (run (TasksPage.call (delete_task_onOk id)) env st)) = st.
Proof.
  intros Hfail. repeat match goal with |- _ /\ _ => split end; run_any;
    ask_world_given ltac:(rewrite ?Hfail); reflexivity.
Qed.

Lemma failed_task_call_changes_nothing_witness :
  page (snd (run (TasksPage.handleRunTask (RT := Sample.runtime))
               (refusing not_found (lit "Request failed with status code 404"))
               typed_task))
  = typed_task.
Proof.
  exact (proj1 (failed_task_call_changes_nothing (RT := Sample.runtime)
                  (refusing not_found (lit "Request failed with status code 404"))
                  not_found _ typed_task (of_Z 7) (fun _ => eq_refl))).
Defined.

(** X5: when the backend refuses a create, update, delete or search on a
    knowledge page, the page state is what it was (the edit dialog stays
    open, the previous results stay), the search-loading flag apart, which
    is off. *)
Theorem failed_knowledge_call_changes_nothing {RT : Runtime}
    (env : Env) (resp : option AxiosResponse) (msg : jsstring)
    (sb : BusinessKnowledgePage.State) (sr : ReasoningKnowledgePage.State)
    (id : number) (values : value) (search : list (jsstring * value))
    (type : jsstring) :
  (forall r, backend env 0%nat r = Failed resp msg) ->
  forms env form = Valid values ->
  forms env searchForm = Valid (Obj search) ->
  (page (snd (run BusinessKnowledgePage.handleSubmit env sb)) = sb
   /\ page (snd (run (BusinessKnowledgePage.handleDelete id) env sb)) = sb
   /\ page (snd (run (BusinessKnowledgePage.handleSearch type) env sb))
      = {| BusinessKnowledgePage.knowledgeList := BusinessKnowledgePage.knowledgeList sb;
           BusinessKnowledgePage.loading := BusinessKnowledgePage.loading sb;
           BusinessKnowledgePage.modalVisible := BusinessKnowledgePage.modalVisible sb;
           BusinessKnowledgePage.editingItem := BusinessKnowledgePage.editingItem sb;
           BusinessKnowledgePage.searchResults := BusinessKnowledgePage.searchResults sb;
           BusinessKnowledgePage.searchLoading := false |})
  /\ (page (snd (run ReasoningKnowledgePage.handleSubmit env sr)) = sr
      /\ page (snd (run (ReasoningKnowledgePage.handleDelete id) env sr)) = sr
      /\ page (snd (run (ReasoningKnowledgePage.handleSearch type) env sr))
         = {| ReasoningKnowledgePage.knowledgeList :=
                ReasoningKnowledgePage.knowledgeList sr;
              ReasoningKnowledgePage.loading := ReasoningKnowledgePage.loading sr;
              ReasoningKnowledgePage.modalVisible := ReasoningKnowledgePage.modalVisible sr;
              ReasoningKnowledgePage.editingItem := ReasoningKnowledgePage.editingItem sr;
              ReasoningKnowledgePage.searchResults :=
                ReasoningKnowledgePage.searchResults sr;
              ReasoningKnowledgePage.searchLoading := false |}).
Proof.
  intros Hfail Hform Hsearch.
  repeat match goal with |- _ /\ _ => split end; run_any;
    ask_world_given ltac:(rewrite ?Hform, ?Hsearch, ?Hfail); reflexivity.
Qed.

Lemma failed_knowledge_call_changes_nothing_witness :
  page (snd (run (BusinessKnowledgePage.handleSubmit (RT := Sample.runtime))
               timed_out BusinessKnowledgePage.initial))
  = BusinessKnowledgePage.initial.
Proof.
  exact (proj1 (proj1 (failed_knowledge_call_changes_nothing (RT := Sample.runtime)
                  timed_out None _ BusinessKnowledgePage.initial
                  ReasoningKnowledgePage.initial (of_Z 7) _ _ (lit "question")
                  (fun _ => eq_refl) eq_refl eq_refl))).
Defined.

(** X6: when a form does not validate, the submit and search handlers send
    nothing and show nothing; the page is unchanged (the search-loading flag
    is off). *)
Theorem invalid_form_is_silent {RT : Runtime}
    (env : Env) (fs fs' : list value)
    (sb : BusinessKnowledgePage.State) (sr : ReasoningKnowledgePage.State)
    (type : jsstring) :
  forms env form = Invalid fs ->
  forms env searchForm = Invalid fs' ->
  (run BusinessKnowledgePage.handleSubmit env sb
     = (Fulfilled tt, {| page := sb; trace := [] |})
   /\ run (BusinessKnowledgePage.handleSearch type) env sb
      = (Fulfilled tt,
         {| page :=
              {| BusinessKnowledgePage.knowledgeList :=
                   BusinessKnowledgePage.knowledgeList sb;
                 BusinessKnowledgePage.loading := BusinessKnowledgePage.loading sb;
                 BusinessKnowledgePage.modalVisible :=
                   BusinessKnowledgePage.modalVisible sb;
                 BusinessKnowledgePage.editingItem := BusinessKnowledgePage.editingItem sb;
                 BusinessKnowledgePage.searchResults :=
                   BusinessKnowledgePage.searchResults sb;
                 BusinessKnowledgePage.searchLoading := false |};
            trace := [] |}))
  /\ (run ReasoningKnowledgePage.handleSubmit env sr
        = (Fulfilled tt, {| page := sr; trace := [] |})
      /\ run (ReasoningKnowledgePage.handleSearch type) env sr
         = (Fulfilled tt,
            {| page :=
                 {| ReasoningKnowledgePage.knowledgeList :=
                      ReasoningKnowledgePage.knowledgeList sr;
                    ReasoningKnowledgePage.loading := ReasoningKnowledgePage.loading sr;
                    ReasoningKnowledgePage.modalVisible :=
                      ReasoningKnowledgePage.modalVisible sr;
                    ReasoningKnowledgePage.editingItem :=
                      ReasoningKnowledgePage.editingItem sr;
                    ReasoningKnowledgePage.searchResults :=
                      ReasoningKnowledgePage.searchResults sr;
                    ReasoningKnowledgePage.searchLoading := false |};
               trace := [] |})).
Proof.
  intros Hform Hsearch.
  repeat match goal with |- _ /\ _ => split end; run_any;
    rewrite ?Hform, ?Hsearch; reflexivity.
Qed.

Lemma invalid_form_is_silent_witness :
  trace (snd (run (BusinessKnowledgePage.handleSubmit (RT := Sample.runtime))
                nothing_typed BusinessKnowledgePage.initial))
  = [].
Proof.
  rewrite (proj1 (proj1 (invalid_form_is_silent (RT := Sample.runtime)
             nothing_typed _ _ BusinessKnowledgePage.initial
             ReasoningKnowledgePage.initial (lit "question") eq_refl eq_refl))).
  reflexivity.
Defined.

Lemma or_else_truthy (a b : value) : truthy b = true -> truthy (or_else a b) = true.
Proof. intros Hb. unfold or_else. destruct (truthy a) eqn:Ha; assumption. Qed.

Lemma search_body_fields (q k t : value) :
  opt_member (search_body q k t) (lit "query_text") = q
  /\ opt_member (search_body q k t) (lit "top_k") = k
  /\ opt_member (search_body q k t) (lit "threshold") = t.
Proof. repeat split. Qed.

(** X7: every request that any handler of the three pages sends, in any
    world, is made on the shared instance [api]. *)
Theorem every_page_request_goes_through_api {RT : Runtime}
    (env : Env) (st : TasksPage.State) (sb : BusinessKnowledgePage.State)
    (sr : ReasoningKnowledgePage.State) (id : number) (type : jsstring) (cb : Callback) :
  let through_api {S : Type} (w : World S) :=
    Forall (fun r => client r = api) (requests w) in
  through_api (snd (run TasksPage.fetchTasks env st))
  /\ through_api (snd (run TasksPage.handleRunTask env st))
  /\ through_api (snd (run (TasksPage.handleViewDetail id) env st))
  /\ through_api (snd (run (TasksPage.handleDelete id) env st))
  /\ through_api (snd (run (TasksPage.call cb) env st))
  /\ through_api (snd (run BusinessKnowledgePage.fetchKnowledge env sb))
  /\ through_api (snd (run BusinessKnowledgePage.handleSubmit env sb))
  /\ through_api (snd (run (BusinessKnowledgePage.handleDelete id) env sb))
  /\ through_api (snd (run (BusinessKnowledgePage.handleSearch type) env sb))
  /\ through_api (snd (run ReasoningKnowledgePage.fetchKnowledge env sr))
  /\ through_api (snd (run ReasoningKnowledgePage.handleSubmit env sr))
  /\ through_api (snd (run (ReasoningKnowledgePage.handleDelete id) env sr))
  /\ through_api (snd (run (ReasoningKnowledgePage.handleSearch type) env sr)).
Proof.
  intros through_api. subst through_api.
  repeat match goal with |- _ /\ _ => split end;
    try destruct cb; run_any; ask_world; repeat constructor.
Qed.

Lemma or_else_supplied (a b : value) : b <> Undefined -> or_else a b <> Undefined.
Proof.
  intros Hb. unfold or_else. destruct (truthy a) eqn:Ha; [| exact Hb].
  intros ->. discriminate Ha.
Qed.

Lemma page_search_requests (q k t : value) :
  let k' := or_else k (Num (of_Z 5)) in
  let t' := or_else t (Num (of_Z 0)) in
  businessKnowledgeApi.searchByQuestion q k' t'
    = axios_post api (lit "/business-knowledge/search/question") (search_body q k' t')
  /\ businessKnowledgeApi.searchByAnswer q k' t'
    = axios_post api (lit "/business-knowledge/search/answer") (search_body q k' t')
  /\ reasoningKnowledgeApi.searchByTask q k' t'
    = axios_post api (lit "/reasoning-knowledge/search/task") (search_body q k' t')
  /\ reasoningKnowledgeApi.searchByStep q k' t'
    = axios_post api (lit "/reasoning-knowledge/search/step") (search_body q k' t').
Proof.
  intros k' t'.
  assert (Hk : k' <> Undefined) by (apply or_else_supplied; discriminate).
  assert (Ht : t' <> Undefined) by (apply or_else_supplied; discriminate).
  unfold businessKnowledgeApi.searchByQuestion, businessKnowledgeApi.searchByAnswer,
    reasoningKnowledgeApi.searchByTask, reasoningKnowledgeApi.searchByStep.
  rewrite !(default_supplied _ k' Hk), !(default_supplied _ t' Ht).
  repeat split.
Qed.

#[local] Arguments or_else : simpl never.

(** X8: a search request never carries a falsy result count.  Whatever
    the world answers, each request a search handler sends carries the
    query of the form, as result count the form's when that is truthy and 5
    when it is not (missing, null, 0), and as threshold the form's when
    that is truthy and 0 otherwise; so the count sent is truthy, and the
    threshold sent is truthy or 0. *)
Theorem search_never_asks_for_zero_results {RT : Runtime}
    (env : Env) (sb : BusinessKnowledgePage.State) (sr : ReasoningKnowledgePage.State)
    (type : jsstring) :
  let sound (r : Request) :=
    (exists values,
        forms env searchForm = Valid values
        /\ data r
           = search_body (opt_member values (lit "query_text"))
               (if truthy (opt_member values (lit "top_k"))
                then opt_member values (lit "top_k") else Num (of_Z 5))
               (if truthy (opt_member values (lit "threshold"))
                then opt_member values (lit "threshold") else Num (of_Z 0)))
    /\ truthy (opt_member (data r) (lit "top_k")) = true
    /\ (truthy (opt_member (data r) (lit "threshold")) = true
        \/ opt_member (data r) (lit "threshold") = Num (of_Z 0)) in
  Forall sound (requests (snd (run (BusinessKnowledgePage.handleSearch type) env sb)))
  /\ Forall sound (requests (snd (run (ReasoningKnowledgePage.handleSearch type) env sr))).
Proof.
  intros sound. subst sound.
  split; run_any; ask_world;
    first [ apply Forall_nil | apply Forall_cons; [cbv beta | apply Forall_nil] ];
    match goal with
    | |- context [businessKnowledgeApi.searchByQuestion ?q (or_else ?k _) (or_else ?t _)] =>
        rewrite (proj1 (page_search_requests q k t))
    | |- context [businessKnowledgeApi.searchByAnswer ?q (or_else ?k _) (or_else ?t _)] =>
        rewrite (proj1 (proj2 (page_search_requests q k t)))
    | |- context [reasoningKnowledgeApi.searchByTask ?q (or_else ?k _) (or_else ?t _)] =>
        rewrite (proj1 (proj2 (proj2 (page_search_requests q k t))))
    | |- context [reasoningKnowledgeApi.searchByStep ?q (or_else ?k _) (or_else ?t _)] =>
        rewrite (proj2 (proj2 (proj2 (page_search_requests q k t))))
    end;
    cbn [data axios_post];
    rewrite !(proj1 (proj2 (search_body_fields _ _ _))),
      !(proj2 (proj2 (search_body_fields _ _ _)));
    match goal with
    | Hf : forms env searchForm = Valid ?v,
      Hq : member ?v (lit "query_text") = Some _,
      Hk : member ?v (lit "top_k") = Some _,
      Ht : member ?v (lit "threshold") = Some _ |- _ =>
        split;
        [ exists v; split; [first [exact Hf | reflexivity] |];
          rewrite (member_opt_member _ _ _ Hq), (member_opt_member _ _ _ Hk),
            (member_opt_member _ _ _ Ht); reflexivity
        | split;
          [ apply or_else_truthy; reflexivity
          | unfold or_else;
            match goal with
            | |- context [if truthy ?t then _ else _] =>
                destruct (truthy t) eqn:Htruthy;
                [left; exact Htruthy | right; reflexivity]
            end ] ]
    end.
Qed.

(** A form whose result count is 0 and whose threshold is missing asks
    for 5 results above 0. *)
Lemma zero_count_is_sent_as_five :
  let env := {| backend := fun _ _ => Resolved {| response_data := Arr [] |};
                forms := fun _ =>
                  Valid (Obj [(lit "query_text", Str (lit "登录"));
                              (lit "top_k", Num (of_Z 0))]) |} in
  requests (snd (run (BusinessKnowledgePage.handleSearch (RT := Sample.runtime)
                        (lit "question")) env BusinessKnowledgePage.initial))
  = [axios_post api (lit "/business-knowledge/search/question")
       (search_body (Str (lit "登录")) (Num (of_Z 5)) (Num (of_Z 0)))].
Proof. vm_compute. reflexivity. Qed.

(** *** The add dialog of the task page *)

Lemma trimStart_split (s : jsstring) :
  exists a, s = a ++ trimStart s /\ forallb is_space a = true.
Proof.
  induction s as [|c r (a & Hs & Ha)]; [exists []; split; reflexivity |].
  cbn. destruct (is_space c) eqn:Hc.
  - exists (c :: a). split; [cbn; congruence | cbn; rewrite Hc; exact Ha].
  - exists []. split; reflexivity.
Qed.

Lemma forallb_rev (f : N -> bool) (l : jsstring) :
  forallb f l = true -> forallb f (rev l) = true.
Proof.
  rewrite !forallb_forall. intros H x Hx. apply H, in_rev, Hx.
Qed.

(** [trim] removes white space from both ends and nothing else; it is
    idempotent. *)
Lemma trim_strips_only_white_space (s : jsstring) :
  (exists a b, s = a ++ trim s ++ b
               /\ forallb is_space a = true /\ forallb is_space b = true)
  /\ (forall c r, trim s = c :: r -> is_space c = false)
  /\ (forall c r, rev (trim s) = c :: r -> is_space c = false)
  /\ trim (trim s) = trim s.
Proof.
  assert (Hsplit : exists a b, s = a ++ trim s ++ b
               /\ forallb is_space a = true /\ forallb is_space b = true).
  { destruct (trimStart_split s) as (a & Hs & Ha).
    destruct (trimStart_split (rev (trimStart s))) as (b & Hr & Hb).
    exists a, (rev b). split; [| split; [exact Ha | apply forallb_rev, Hb]].
    unfold trim, trimEnd. rewrite <- rev_app_distr, <- Hr, rev_involutive. exact Hs. }
  assert (Hlast : forall c r, rev (trim s) = c :: r -> is_space c = false).
  { intros c r H. unfold trim, trimEnd in H. rewrite rev_involutive in H.
    destruct (trimStart_head (rev (trimStart s))) as [Hn | (c' & r' & Hc & Hsp)];
      congruence. }
  assert (Hhead : forall c r, trim s = c :: r -> is_space c = false).
  { intros c r H.
    destruct (trimStart_split (rev (trimStart s))) as (b & Hr & Hb).
    assert (Hu : trimStart s = trim s ++ rev b).
    { unfold trim, trimEnd. rewrite <- rev_app_distr, <- Hr, rev_involutive. reflexivity. }
    rewrite H in Hu. cbn in Hu.
    destruct (trimStart_head s) as [Hn | (c' & r' & Hc & Hsp)]; congruence. }
  split; [exact Hsplit |]. split; [exact Hhead |]. split; [exact Hlast |].
  (* idempotence: nothing is left to strip at either end *)
  assert (Hfix : forall u, (forall c r, u = c :: r -> is_space c = false) -> trimStart u = u).
  { intros [|c r] Hu; [reflexivity |]. cbn. rewrite (Hu c r eq_refl). reflexivity. }
  unfold trim at 1. rewrite (Hfix (trim s) Hhead).
  unfold trimEnd. rewrite (Hfix (rev (trim s)) Hlast). apply rev_involutive.
Qed.

(** X9: the submit handler of the add dialog shows its warning, and sends
    nothing, exactly when the description consists of white space only. *)
Theorem runTask_refuses_exactly_blank_input {RT : Runtime}
    (env : Env) (s : TasksPage.State) :
  let w := snd (run TasksPage.handleRunTask env s) in
  (trace w = [Message warning (lit "请输入任务描述")]
     <-> forallb is_space (TasksPage.taskInput s) = true)
  /\ (requests w = [] <-> forallb is_space (TasksPage.taskInput s) = true).
Proof.
  cbv zeta. rewrite <- trim_nil_iff. run_any.
  destruct (trim (TasksPage.taskInput s)) as [|c t] eqn:E; cbn.
  - repeat split.
  - ask_world; repeat split; discriminate.
Qed.

(** X10: the task text a run request carries is the typed description
    with white space removed from both ends and nothing else: it is not
    empty, it neither starts nor ends with white space, and what was cut
    off is white space only.  The request never names a task to resume. *)
Theorem sent_task_is_the_input_without_outer_white_space {RT : Runtime}
    (env : Env) (s : TasksPage.State) (r : Request) :
  In r (requests (snd (run TasksPage.handleRunTask env s))) ->
  exists before task after,
    r = axios_post api (lit "/tasks/run")
          (Obj [(lit "task", Str task); (lit "task_id", Undefined)])
    /\ TasksPage.taskInput s = before ++ task ++ after
    /\ forallb is_space before = true
    /\ forallb is_space after = true
    /\ (exists c rest, task = c :: rest /\ is_space c = false)
    /\ (exists c rest, rev task = c :: rest /\ is_space c = false).
Proof.
  intros Hin.
  destruct (trim_strips_only_white_space (TasksPage.taskInput s))
    as ((a & b & Hs & Ha & Hb) & Hhead & Hlast & _).
  assert (Hreq : trim (TasksPage.taskInput s) <> []
                 /\ r = taskApi.runTask (Str (trim (TasksPage.taskInput s))) Undefined).
  { revert Hin. run_any.
    destruct (trim (TasksPage.taskInput s)) as [|c t]; cbn; [intros [] |].
    ask_world; (intros [<- | []]; split; [discriminate | reflexivity]). }
  destruct Hreq as [Hne ->].
  exists a, (trim (TasksPage.taskInput s)), b.
  split; [reflexivity |]. split; [exact Hs |]. split; [exact Ha |]. split; [exact Hb |].
  split.
  - destruct (trim (TasksPage.taskInput s)) as [|c t] eqn:E; [contradiction Hne; reflexivity |].
    exists c, t. split; [reflexivity | exact (Hhead c t eq_refl)].
  - destruct (rev (trim (TasksPage.taskInput s))) as [|c t] eqn:E.
    + apply (f_equal (@rev N)) in E. rewrite rev_involutive in E. contradiction.
    + exists c, t. split; [reflexivity | exact (Hlast c t eq_refl)].
Qed.

Lemma sent_task_is_the_input_without_outer_white_space_witness :
  exists before task after,
    lit "  打开云文档 " = before ++ task ++ after
    /\ forallb is_space before = true
    /\ forallb is_space after = true
    /\ (exists c rest, task = c :: rest /\ is_space c = false).
Proof.
  destruct (sent_task_is_the_input_without_outer_white_space (RT := Sample.runtime)
              (accepting (Obj [(lit "task_id", Num (of_Z 7))])) typed_task
              (taskApi.runTask (Str (lit "打开云文档")) Undefined)
              ltac:(vm_compute; left; reflexivity))
    as (a & t & b & _ & Hs & Ha & Hb & Hh & _).
  exists a, t, b. repeat split; assumption.
Defined.

(** X11: the detail dialog, when closed, opens exactly when the detail
    request resolves, and then shows the body the backend returned; the
    task list is untouched either way and one request is sent. *)
Theorem detail_dialog_opens_only_on_success {RT : Runtime}
    (env : Env) (st : TasksPage.State) (id : number) :
  TasksPage.detailModalVisible st = false ->
  let w := snd (run (TasksPage.handleViewDetail id) env st) in
  (TasksPage.detailModalVisible (page w) = true
     <-> exists d, backend env 0%nat (taskApi.getTask id) = Resolved {| response_data := d |})
  /\ (forall d, backend env 0%nat (taskApi.getTask id) = Resolved {| response_data := d |} ->
                TasksPage.selectedTask (page w) = d)
  /\ TasksPage.tasks (page w) = TasksPage.tasks st
  /\ requests w = [taskApi.getTask id].
Proof.
  intros Hclosed. cbv zeta. run_any.
  destruct (backend env 0%nat _) as [[d]|r m]; cbn.
  - repeat split; try reflexivity.
    + intros _. exists d. reflexivity.
    + intros d' H. congruence.
  - rewrite catch_detail. destruct (to_string (failure_detail r m)); cbn;
      (repeat split; try reflexivity;
       [ intros H; congruence
       | intros (d & H); discriminate H
       | intros d H; discriminate H ]).
Qed.

Lemma detail_dialog_opens_only_on_success_witness :
  TasksPage.selectedTask
    (page (snd (run (TasksPage.handleViewDetail (RT := Sample.runtime) (of_Z 7))
                  (accepting (Obj [(lit "id", Num (of_Z 7))])) some_tasks)))
  = Obj [(lit "id", Num (of_Z 7))].
Proof.
  exact (proj1 (proj2 (detail_dialog_opens_only_on_success (RT := Sample.runtime)
                         (accepting (Obj [(lit "id", Num (of_Z 7))])) some_tasks
                         (of_Z 7) eq_refl)) _ eq_refl).
Defined.

(** X12: a task run the backend accepts, with a body whose [task_id] has a
    text, closes the add dialog and empties the input while the list still
    shows the old tasks; when the timer then fires and the list request
    resolves, the list is the backend's. *)
Theorem accepted_run_closes_dialog_then_timer_refreshes {RT : Runtime}
    (env env' : Env) (st : TasksPage.State) (d task_id d' : value) :
  trim (TasksPage.taskInput st) <> [] ->
  backend env 0%nat (taskApi.runTask (Str (trim (TasksPage.taskInput st))) Undefined)
    = Resolved {| response_data := d |} ->
  member d (lit "task_id") = Some task_id ->
  to_string task_id <> None ->
  backend env' 0%nat tasks_list = Resolved {| response_data := d' |} ->
  let after_run := page (snd (run TasksPage.handleRunTask env st)) in
  let after_timer := page (snd (run (TasksPage.call refresh_tasks) env' after_run)) in
  after_run = {| TasksPage.tasks := TasksPage.tasks st;
                 TasksPage.loading := TasksPage.loading st;
                 TasksPage.modalVisible := false;
                 TasksPage.detailModalVisible := TasksPage.detailModalVisible st;
                 TasksPage.selectedTask := TasksPage.selectedTask st;
                 TasksPage.taskInput := [] |}
  /\ after_timer = {| TasksPage.tasks := d';
                      TasksPage.loading := false;
                      TasksPage.modalVisible := false;
                      TasksPage.detailModalVisible := TasksPage.detailModalVisible st;
                      TasksPage.selectedTask := TasksPage.selectedTask st;
                      TasksPage.taskInput := [] |}.
Proof.
  intros Hinput Hrun Hid Htext Hlist. cbv zeta.
  assert (Hafter : page (snd (run TasksPage.handleRunTask env st))
                   = {| TasksPage.tasks := TasksPage.tasks st;
                        TasksPage.loading := TasksPage.loading st;
                        TasksPage.modalVisible := false;
                        TasksPage.detailModalVisible := TasksPage.detailModalVisible st;
                        TasksPage.selectedTask := TasksPage.selectedTask st;
                        TasksPage.taskInput := [] |}).
  { run_any.
    destruct (trim (TasksPage.taskInput st)) as [|c t]; [contradiction Hinput; reflexivity |].
    cbn. rewrite Hrun. cbn. rewrite Hid. cbn.
    destruct (to_string task_id); [reflexivity | contradiction Htext; reflexivity]. }
  split; [exact Hafter |].
  rewrite Hafter. unfold tasks_list in Hlist. run_any. rewrite Hlist. reflexivity.
Qed.

Lemma accepted_run_closes_dialog_then_timer_refreshes_witness :
  TasksPage.tasks
    (page (snd (run (TasksPage.call (RT := Sample.runtime) refresh_tasks)
                  (accepting (Arr [Obj [(lit "id", Num (of_Z 7))]]))
                  (page (snd (run (TasksPage.handleRunTask (RT := Sample.runtime))
                                (accepting (Obj [(lit "task_id", Num (of_Z 7))]))
                                typed_task))))))
  = Arr [Obj [(lit "id", Num (of_Z 7))]].
Proof.
  pose proof (accepted_run_closes_dialog_then_timer_refreshes (RT := Sample.runtime)
                (accepting (Obj [(lit "task_id", Num (of_Z 7))]))
                (accepting (Arr [Obj [(lit "id", Num (of_Z 7))]]))
                typed_task _ (Num (of_Z 7)) _
                ltac:(vm_compute; discriminate) eq_refl eq_refl
                ltac:(vm_compute; discriminate) eq_refl) as [_ H].
  cbv zeta in H. rewrite H. reflexivity.
Defined.

(** X13: the delete handler of the task page changes nothing and sends
    nothing; the delete request of that task is the first thing the
    dialog's [onOk] sends. *)
Theorem task_delete_waits_for_confirmation {RT : Runtime}
    (env env' : Env) (st st' : TasksPage.State) (id : number) :
  let w := snd (run (TasksPage.handleDelete id) env st) in
  requests w = []
  /\ page w = st
  /\ exists title content onOk,
       trace w = [ModalConfirm title content onOk]
       /\ exists rest,
            requests (snd (run (TasksPage.call onOk) env' st'))
            = taskApi.deleteTask id :: rest.
Proof.
  cbv zeta. split; [reflexivity |]. split; [reflexivity |].
  do 3 eexists. split; [reflexivity |].
  run_any. ask_world; eexists; reflexivity.
Qed.

(** X14: opening the add dialog and typing shows the dialog with the text;
    cancelling closes it and empties the input, which restores a page whose
    dialog was closed and empty; a submit after that is refused with the
    warning. *)
Theorem cancelling_the_add_dialog_discards_the_input {RT : Runtime}
    (env : Env) (st : TasksPage.State) (text : jsstring) :
  let typed := page (snd (run (bind TasksView.add_onClick
                                 (fun _ => TasksView.input_onChange text)) env st)) in
  let cancelled := page (snd (run TasksView.add_onCancel env typed)) in
  TasksPage.modalVisible typed = true
  /\ TasksPage.taskInput typed = text
  /\ cancelled = {| TasksPage.tasks := TasksPage.tasks st;
                    TasksPage.loading := TasksPage.loading st;
                    TasksPage.modalVisible := false;
                    TasksPage.detailModalVisible := TasksPage.detailModalVisible st;
                    TasksPage.selectedTask := TasksPage.selectedTask st;
                    TasksPage.taskInput := [] |}
  /\ (TasksPage.modalVisible st = false -> TasksPage.taskInput st = [] -> cancelled = st)
  /\ run TasksPage.handleRunTask env cancelled
     = (Fulfilled tt,
        {| page := cancelled; trace := [Message warning (lit "请输入任务描述")] |}).
Proof.
  cbv zeta. repeat match goal with |- _ /\ _ => split end; try reflexivity.
  intros Hm Hi. destruct st. cbn in *. subst. reflexivity.
Qed.

(** *** The API modules *)

(** X15: whatever the arguments, a function of an API module requests its
    own resource path or a path below it. *)
Theorem each_module_stays_under_its_resource {RT : Runtime} (c : Call) :
  exists rest,
    url (request_of c) = resource c ++ rest
    /\ (rest = [] \/ exists below, rest = lit "/" ++ below).
Proof.
  destruct c;
    cbv [request_of resource url axios_get axios_post axios_put axios_delete
         taskApi.runTask taskApi.getTask taskApi.getTasks taskApi.deleteTask
         businessKnowledgeApi.create businessKnowledgeApi.get businessKnowledgeApi.list
         businessKnowledgeApi.update businessKnowledgeApi.delete
         businessKnowledgeApi.searchByQuestion businessKnowledgeApi.searchByAnswer
         businessKnowledgeApi.count
         reasoningKnowledgeApi.create reasoningKnowledgeApi.get reasoningKnowledgeApi.list
         reasoningKnowledgeApi.update reasoningKnowledgeApi.delete
         reasoningKnowledgeApi.searchByTask reasoningKnowledgeApi.searchByStep
         reasoningKnowledgeApi.count];
    match goal with
    | |- exists rest, ?p ++ ?x = ?root ++ rest /\ _ =>
        exists (lit "/" ++ x); split;
        [ change p with (root ++ lit "/"); rewrite <- app_assoc; reflexivity
        | right; exists x; reflexivity ]
    | |- exists rest, ?root = ?root ++ rest /\ _ =>
        exists []; split; [symmetry; apply app_nil_r | left; reflexivity]
    | |- exists rest, ?u = ?root ++ rest /\ _ =>
        exists (skipn (List.length root) u); split;
        [ vm_compute; reflexivity
        | right; exists (skipn (S (List.length root)) u); vm_compute; reflexivity ]
    end.
Qed.

Lemma default_defined (d x : value) : d <> Undefined -> default d x <> Undefined.
Proof. intros Hd. destruct x; cbn; try discriminate. exact Hd. Qed.

(** X16: a GET or DELETE request carries no body and a POST or PUT no query
    parameters; a list request always carries both skip and limit, and a
    search request both a result count and a threshold, also when the
    caller leaves them out. *)
Theorem requests_are_complete_and_well_formed {RT : Runtime} (c : Call) :
  let r := request_of c in
  match method r with
  | GET | DELETE => data r = Undefined
  | POST | PUT => params r = Undefined
  end
  /\ (if is_list c
      then method r = GET
           /\ opt_member (params r) (lit "skip") <> Undefined
           /\ opt_member (params r) (lit "limit") <> Undefined
      else params r = Undefined)
  /\ (is_search c = true ->
      method r = POST
      /\ opt_member (data r) (lit "top_k") <> Undefined
      /\ opt_member (data r) (lit "threshold") <> Undefined).
Proof.
  cbv zeta. destruct c; cbn [request_of is_list is_search];
    (split; [reflexivity |]); (split; [| try discriminate]);
    try reflexivity.
  - split; [reflexivity |]. split; apply default_defined; discriminate.
  - split; [reflexivity |]. split; apply default_defined; discriminate.
  - intros _. split; [reflexivity |]. split; apply default_defined; discriminate.
  - intros _. split; [reflexivity |]. split; apply default_defined; discriminate.
  - split; [reflexivity |]. split; apply default_defined; discriminate.
  - intros _. split; [reflexivity |]. split; apply default_defined; discriminate.
  - intros _. split; [reflexivity |]. split; apply default_defined; discriminate.
Qed.

(** *** The knowledge pages *)

(** X17: editing a row opens the dialog in edit mode with the row's two
    texts in the form, and a submit that validates then sends the update
    of that row's id first. *)
Theorem edit_then_submit_updates_that_record {RT : Runtime}
    (env0 env : Env) (values : value)
    (record : BusinessKnowledgePage.BusinessKnowledge)
    (record' : ReasoningKnowledgePage.ReasoningKnowledge)
    (eb : BusinessKnowledgeModal.Editor) (er : ReasoningKnowledgeModal.Editor) :
  forms env form = Valid values ->
  (let ed := page (snd (run (BusinessKnowledgeModal.handleEdit record) env0 eb)) in
   fst (run (BusinessKnowledgeModal.handleEdit record) env0 eb) = Fulfilled tt
   /\ BusinessKnowledgePage.modalVisible (BusinessKnowledgeModal.state ed) = true
   /\ BusinessKnowledgeModal.modal_title ed = lit "编辑知识"
   /\ lookup (BusinessKnowledgeModal.fields ed) (lit "question_text")
      = Str (BusinessKnowledgePage.question_text record)
   /\ lookup (BusinessKnowledgeModal.fields ed) (lit "answer_text")
      = Str (BusinessKnowledgePage.answer_text record)
   /\ exists rest,
        requests (snd (run BusinessKnowledgePage.handleSubmit env
                         (BusinessKnowledgeModal.state ed)))
        = businessKnowledgeApi.update (BusinessKnowledgePage.id record) values :: rest)
  /\ (let ed := page (snd (run (ReasoningKnowledgeModal.handleEdit record') env0 er)) in
      fst (run (ReasoningKnowledgeModal.handleEdit record') env0 er) = Fulfilled tt
      /\ ReasoningKnowledgePage.modalVisible (ReasoningKnowledgeModal.state ed) = true
      /\ ReasoningKnowledgeModal.modal_title ed = lit "编辑知识"
      /\ lookup (ReasoningKnowledgeModal.fields ed) (lit "task_text")
         = Str (ReasoningKnowledgePage.task_text record')
      /\ lookup (ReasoningKnowledgeModal.fields ed) (lit "step_text")
         = Str (ReasoningKnowledgePage.step_text record')
      /\ exists rest,
           requests (snd (run ReasoningKnowledgePage.handleSubmit env
                            (ReasoningKnowledgeModal.state ed)))
           = reasoningKnowledgeApi.update (ReasoningKnowledgePage.id record') values
               :: rest).
Proof.
  intros Hform. cbv zeta.
  split; run_any; (repeat match goal with |- _ /\ _ => split end; try reflexivity);
    rewrite Hform; ask_world; eexists; reflexivity.
Qed.

(** X18: the add button opens the dialog in add mode with an empty form,
    whatever was edited before, and a submit that validates then sends a
    create first. *)
Theorem create_then_submit_creates {RT : Runtime}
    (env0 env : Env) (values : value)
    (eb : BusinessKnowledgeModal.Editor) (er : ReasoningKnowledgeModal.Editor) :
  forms env form = Valid values ->
  (let ed := page (snd (run BusinessKnowledgeModal.handleCreate env0 eb)) in
   BusinessKnowledgePage.modalVisible (BusinessKnowledgeModal.state ed) = true
   /\ BusinessKnowledgeModal.modal_title ed = lit "添加知识"
   /\ BusinessKnowledgeModal.fields ed = []
   /\ exists rest,
        requests (snd (run BusinessKnowledgePage.handleSubmit env
                         (BusinessKnowledgeModal.state ed)))
        = businessKnowledgeApi.create values :: rest)
  /\ (let ed := page (snd (run ReasoningKnowledgeModal.handleCreate env0 er)) in
      ReasoningKnowledgePage.modalVisible (ReasoningKnowledgeModal.state ed) = true
      /\ ReasoningKnowledgeModal.modal_title ed = lit "添加知识"
      /\ ReasoningKnowledgeModal.fields ed = []
      /\ exists rest,
           requests (snd (run ReasoningKnowledgePage.handleSubmit env
                            (ReasoningKnowledgeModal.state ed)))
           = reasoningKnowledgeApi.create values :: rest).
Proof.
  intros Hform. cbv zeta.
  split; run_any; (repeat match goal with |- _ /\ _ => split end; try reflexivity);
    rewrite Hform; ask_world; eexists; reflexivity.
Qed.

Lemma edit_then_submit_updates_that_record_witness :
  lookup (BusinessKnowledgeModal.fields
            (page (snd (run (BusinessKnowledgeModal.handleEdit a_record)
                          timed_out closed_business_editor))))
    (lit "question_text")
  = Str (lit "如何登录").
Proof.
  pose proof (edit_then_submit_updates_that_record (RT := Sample.runtime)
                timed_out timed_out _ a_record a_reasoning_record
                closed_business_editor closed_reasoning_editor eq_refl)
    as [(_ & _ & _ & H & _) _].
  cbv zeta in H. rewrite H. reflexivity.
Defined.

Lemma create_then_submit_creates_witness :
  BusinessKnowledgeModal.modal_title
    (page (snd (run BusinessKnowledgeModal.handleCreate timed_out closed_business_editor)))
  = lit "添加知识".
Proof.
  exact (proj1 (proj2 (proj1 (create_then_submit_creates (RT := Sample.runtime)
                  timed_out timed_out _
                  closed_business_editor closed_reasoning_editor eq_refl)))).
Defined.

(** X19: an open dialog closes exactly when the mutation succeeded: the
    add-task dialog when the run resolves with a body to read the id from
    and the id has a text, the knowledge dialogs when the create or update
    resolves. *)
Theorem dialogs_close_exactly_on_success {RT : Runtime}
    (env : Env) (values : value)
    (st : TasksPage.State) (sb : BusinessKnowledgePage.State)
    (sr : ReasoningKnowledgePage.State) :
  forms env form = Valid values ->
  trim (TasksPage.taskInput st) <> [] ->
  TasksPage.modalVisible st = true ->
  BusinessKnowledgePage.modalVisible sb = true ->
  ReasoningKnowledgePage.modalVisible sr = true ->
  (TasksPage.modalVisible (page (snd (run TasksPage.handleRunTask env st))) = false
   <-> exists d task_id,
         backend env 0%nat
           (taskApi.runTask (Str (trim (TasksPage.taskInput st))) Undefined)
         = Resolved {| response_data := d |}
         /\ member d (lit "task_id") = Some task_id
         /\ to_string task_id <> None)
  /\ (BusinessKnowledgePage.modalVisible
        (page (snd (run BusinessKnowledgePage.handleSubmit env sb))) = false
      <-> exists r,
            backend env 0%nat
              (match BusinessKnowledgePage.editingItem sb with
               | Some item =>
                   businessKnowledgeApi.update (BusinessKnowledgePage.id item) values
               | None => businessKnowledgeApi.create values
               end)
            = Resolved r)
  /\ (ReasoningKnowledgePage.modalVisible
        (page (snd (run ReasoningKnowledgePage.handleSubmit env sr))) = false
      <-> exists r,
            backend env 0%nat
              (match ReasoningKnowledgePage.editingItem sr with
               | Some item =>
                   reasoningKnowledgeApi.update (ReasoningKnowledgePage.id item) values
               | None => reasoningKnowledgeApi.create values
               end)
            = Resolved r).
Proof.
  intros Hform Hinput Ht Hb Hr.
  repeat match goal with |- _ /\ _ => split end.
  - run_any.
    destruct (trim (TasksPage.taskInput st)) as [|c t]; [contradiction Hinput; reflexivity |].
    cbn. destruct (backend env 0%nat _) as [[d]|r m]; cbn.
    + destruct (member d (lit "task_id")) as [task_id|] eqn:Hid; cbn.
      * destruct (to_string task_id) as [shown|] eqn:Htext; cbn.
        -- split; [| reflexivity]. intros _. exists d, task_id.
           split; [reflexivity |]. split; [exact Hid | congruence].
        -- rewrite catch_type_error, to_string_Str. cbn. rewrite Ht.
           split; [discriminate |].
           intros (d' & id' & H & Hid' & Htext'). congruence.
      * rewrite catch_type_error, to_string_Str. cbn. rewrite Ht.
        split; [discriminate |].
        intros (d' & id' & H & Hid' & _). congruence.
    + rewrite catch_detail. destruct (to_string (failure_detail r m)); cbn; rewrite Ht;
        (split; [discriminate |]; intros (d' & id' & H & _); discriminate H).
  - run_any. rewrite Hform.
    destruct (BusinessKnowledgePage.editingItem sb) as [item|]; cbn;
      (destruct (backend env 0%nat _) as [[d]|r m]; cbn;
       [ ask_world; (split; [intros _; eexists; reflexivity | reflexivity])
       | rewrite catch_detail; destruct (to_string (failure_detail r m)); cbn;
         rewrite Hb; (split; [discriminate | intros (r0 & H); discriminate H]) ]).
  - run_any. rewrite Hform.
    destruct (ReasoningKnowledgePage.editingItem sr) as [item|]; cbn;
      (destruct (backend env 0%nat _) as [[d]|r m]; cbn;
       [ ask_world; (split; [intros _; eexists; reflexivity | reflexivity])
       | rewrite catch_detail; destruct (to_string (failure_detail r m)); cbn;
         rewrite Hr; (split; [discriminate | intros (r0 & H); discriminate H]) ]).
Qed.

Lemma dialogs_close_exactly_on_success_witness :
  BusinessKnowledgePage.modalVisible
    (page (snd (run (BusinessKnowledgePage.handleSubmit (RT := Sample.runtime))
                  (accepting (Obj [(lit "id", Num (of_Z 7))])) open_business_dialog)))
  = false.
Proof.
  apply (proj1 (proj2 (dialogs_close_exactly_on_success (RT := Sample.runtime)
                  (accepting (Obj [(lit "id", Num (of_Z 7))])) _
                  typed_task open_business_dialog open_reasoning_dialog
                  eq_refl ltac:(vm_compute; discriminate) eq_refl eq_refl eq_refl))).
  eexists. reflexivity.
Defined.

(** X22: a search that validates and resolves stores the body as the
    search results, sends exactly one request, to the first axis when the
    type names it and to the second otherwise, and leaves the rest of the
    page as it was. *)
Theorem search_success_shows_results {RT : Runtime}
    (env : Env) (search : list (jsstring * value)) (d : value)
    (sb : BusinessKnowledgePage.State) (sr : ReasoningKnowledgePage.State)
    (type : jsstring) :
  forms env searchForm = Valid (Obj search) ->
  (forall r, backend env 0%nat r = Resolved {| response_data := d |}) ->
  let body := search_body (lookup search (lit "query_text"))
                (or_else (lookup search (lit "top_k")) (Num (of_Z 5)))
                (or_else (lookup search (lit "threshold")) (Num (of_Z 0))) in
  run (BusinessKnowledgePage.handleSearch type) env sb
  = (Fulfilled tt,
     {| page :=
          {| BusinessKnowledgePage.knowledgeList := BusinessKnowledgePage.knowledgeList sb;
             BusinessKnowledgePage.loading := BusinessKnowledgePage.loading sb;
             BusinessKnowledgePage.modalVisible := BusinessKnowledgePage.modalVisible sb;
             BusinessKnowledgePage.editingItem := BusinessKnowledgePage.editingItem sb;
             BusinessKnowledgePage.searchResults := d;
             BusinessKnowledgePage.searchLoading := false |};
        trace :=
          [Sent (axios_post api
                   (if jsstring_eqb type (lit "question")
                    then lit "/business-knowledge/search/question"
                    else lit "/business-knowledge/search/answer") body)] |})
  /\ run (ReasoningKnowledgePage.handleSearch type) env sr
     = (Fulfilled tt,
        {| page :=
             {| ReasoningKnowledgePage.knowledgeList :=
                  ReasoningKnowledgePage.knowledgeList sr;
                ReasoningKnowledgePage.loading := ReasoningKnowledgePage.loading sr;
                ReasoningKnowledgePage.modalVisible := ReasoningKnowledgePage.modalVisible sr;
                ReasoningKnowledgePage.editingItem := ReasoningKnowledgePage.editingItem sr;
                ReasoningKnowledgePage.searchResults := d;
                ReasoningKnowledgePage.searchLoading := false |};
           trace :=
             [Sent (axios_post api
                      (if jsstring_eqb type (lit "task")
                       then lit "/reasoning-knowledge/search/task"
                       else lit "/reasoning-knowledge/search/step") body)] |}).
Proof.
  intros Hsearch Hok body. subst body.
  assert (Hk : forall k, or_else k (Num (of_Z 5)) <> Undefined)
    by (intros k; apply or_else_supplied; discriminate).
  assert (Ht : forall t, or_else t (Num (of_Z 0)) <> Undefined)
    by (intros t; apply or_else_supplied; discriminate).
  split; run_any; rewrite Hsearch; cbn;
    destruct (jsstring_eqb type _); rewrite Hok; cbn;
    unfold businessKnowledgeApi.searchByQuestion, businessKnowledgeApi.searchByAnswer,
      reasoningKnowledgeApi.searchByTask, reasoningKnowledgeApi.searchByStep;
    rewrite !(default_supplied _ _ (Hk _)), !(default_supplied _ _ (Ht _)); reflexivity.
Qed.

Lemma search_success_shows_results_witness :
  BusinessKnowledgePage.searchResults
    (page (snd (run (BusinessKnowledgePage.handleSearch (RT := Sample.runtime)
                       (lit "answer"))
                  (accepting (Arr [Obj [(lit "id", Num (of_Z 7))]]))
                  BusinessKnowledgePage.initial)))
  = Arr [Obj [(lit "id", Num (of_Z 7))]].
Proof.
  rewrite (proj1 (search_success_shows_results (RT := Sample.runtime)
                    (accepting (Arr [Obj [(lit "id", Num (of_Z 7))]])) _ _
                    BusinessKnowledgePage.initial ReasoningKnowledgePage.initial
                    (lit "answer") eq_refl (fun _ => eq_refl))).
  reflexivity.
Defined.

(** *** The renderers *)


Lemma fixed_digits_shape (n : Z) (f : nat) :
  exists whole frac,
    fixed_digits n (S f) = whole ++ [46%N] ++ frac
    /\ whole <> [] /\ List.length frac = S f.
Proof.
  unfold fixed_digits.
  set (m := repeat 48%N (S (S f) - List.length (digits n)) ++ digits n).
  assert (Hlen : (S (S f) <= List.length m)%nat).
  { subst m. rewrite length_app, repeat_length.
    lia. }
  exists (firstn (List.length m - S f) m), (skipn (List.length m - S f) m).
  split; [reflexivity |]. split.
  - intros H. apply (f_equal (@List.length N)) in H.
    rewrite length_firstn in H.
    change (List.length (@nil N)) with 0%nat in H. lia.
  - rewrite length_skipn. lia.
Qed.

(** X21: a similarity whose hundredfold is finite and below 10^21 shows a
    sign when negative, at least one character before the point, exactly
    two after it, and the percent sign. *)
Theorem similarity_shows_two_decimals {RT : Runtime}
    (x : number) (s : bool) (m : positive) (e : Z) :
  mul x (of_Z 100) = S754_finite s m e ->
  at_least_1e21 m e = false ->
  exists whole frac,
    whole <> [] /\ List.length frac = 2%nat
    /\ BusinessKnowledgePage.render_similarity (Some x)
       = (if s then lit "-" else []) ++ whole ++ lit "." ++ frac ++ lit "%"
    /\ ReasoningKnowledgePage.render_similarity (Some x)
       = (if s then lit "-" else []) ++ whole ++ lit "." ++ frac ++ lit "%".
Proof.
  intros Hmul Hsmall.
  destruct (fixed_digits_shape (nearest_scaled m e 2) 1) as (whole & frac & Hd & Hw & Hf).
  exists whole, frac. split; [exact Hw |]. split; [exact Hf |].
  unfold BusinessKnowledgePage.render_similarity, ReasoningKnowledgePage.render_similarity,
    toFixed.
  rewrite Hmul, Hsmall, Hd.
  change (lit ".") with [46%N]. change (lit "-") with [45%N].
  rewrite <- !app_assoc. split; reflexivity.
Qed.

Lemma similarity_shows_two_decimals_witness :
  exists whole frac,
    whole <> [] /\ List.length frac = 2%nat
    /\ BusinessKnowledgePage.render_similarity (RT := Sample.runtime) (Some (decimal 873 3))
       = whole ++ lit "." ++ frac ++ lit "%".
Proof.
  destruct (similarity_shows_two_decimals (RT := Sample.runtime) (decimal 873 3)
              false 6143191366710067 (-46) ltac:(vm_compute; reflexivity)
              ltac:(vm_compute; reflexivity))
    as (whole & frac & Hw & Hf & Hb & _).
  exists whole, frac. repeat split; assumption.
Defined.
